(** * ca_client.ca: the low level wrapper over the libca enums, flags and constants

    A shallow embedding of [src/ca_client/ca/ca.cpp]: the five table providers
    ([Status], [Severity], [Type], [AccessRights], [Events]), the generic
    registrar [add_enum] and the module initialiser [PyInit_ca], run against a
    model of the part of the CPython C API that the file calls. *)

From stdpp Require Import base list strings.
From Stdlib Require Import ZArith Lia.

Local Open Scope string_scope.
Local Open Scope list_scope.
Local Open Scope Z_scope.

(** ** The constants of the EPICS headers

    [alarm.h], [db_access.h], [caeventmask.h] and [epicsTime.h] are not part of
    the repository: their constants and tables are taken as one record, each
    constant with the C type its header gives it. *)

(** The range of a C [int]. *)
Definition INT_MIN : Z := - 2 ^ 31.
Definition INT_MAX : Z := 2 ^ 31 - 1.

Definition is_int (v : Z) : Prop := (INT_MIN <=? v) && (v <=? INT_MAX) = true.

(** The range of a [short], signed or unsigned. *)
Definition is_short (v : Z) : Prop := (- 2 ^ 15 <=? v) && (v <? 2 ^ 16) = true.

Record c_int := mk_int {
  int_val :> Z;
  int_ok : is_int int_val
}.

Record c_short := mk_short {
  short_val :> Z;
  short_ok : is_short short_val
}.

Record Library := mkLibrary {
  ALARM_NSTATUS : c_int;
  epicsAlarmConditionStrings : Z -> string;
  ALARM_NSEV : c_int;
  epicsAlarmSeverityStrings : Z -> string;
  dbf_text_dim : c_short;
  dbf_type_to_text : Z -> string;
  DBE_VALUE : c_int;
  DBE_ARCHIVE : c_int;
  DBE_ALARM : c_int;
  DBE_PROPERTY : c_int;
  POSIX_TIME_AT_EPICS_EPOCH : Z    (* unsigned; passed on as a [long] *)
}.

(** ** C strings and tables *)

(** [p + n] on a [char const*]: the string that starts [n] characters further.
    Past the terminator the C expression is undefined; the model stops at the
    empty string. *)
Fixpoint ptr_add (p : string) (n : nat) {struct n} : string :=
  match n, p with
  | O, _ => p
  | S n', String _ rest => ptr_add rest n'
  | S _, EmptyString => EmptyString
  end.

(** The first [n] characters of a string. *)
Fixpoint leading (p : string) (n : nat) {struct n} : string :=
  match n, p with
  | O, _ => EmptyString
  | S n', String c rest => String c (leading rest n')
  | S _, EmptyString => EmptyString
  end.

Record Entry := mkEntry {
  entry_text : string;
  entry_value : Z
}.

(** [entries.begin()[i]]; outside the list the C expression is undefined and
    the model answers an empty entry. *)
Definition entry_at (entries : list Entry) (i : Z) : Entry :=
  if i <? 0 then mkEntry "" 0
  else nth (Z.to_nat i) entries (mkEntry "" 0).

(** The value a table gives to a name (the first entry of that name). *)
Fixpoint entry_named (entries : list Entry) (n : string) : option Z :=
  match entries with
  | [] => None
  | e :: rest =>
      if String.eqb (entry_text e) n then Some (entry_value e)
      else entry_named rest n
  end.

(** ** The table providers

    What the template parameter [EnumDef] of [add_enum] has to offer. *)

Record EnumDef := mkEnumDef {
  name : string;
  doc : option string;
  count : Z;
  text : Z -> string;
  value : Z -> Z
}.

Definition status__doc__ : string := "
Alarm status of a channel access PV.
".

Definition severity__doc__ : string := "
Alarm severity of a channel access PV.
".

Definition field_type__doc__ : string := "
Possible types of a channel access PV.
".

Definition access_rights__doc__ : string := "
Access rights for channel access PVs.

These can be combined by or-ing them together.
".

Definition trigger__doc__ : string := "
Available event sources for channel access PVs.

These can be combined by or-ing them together.
".

Definition AccessRights_entries : list Entry :=
  [ mkEntry "NO_ACCESS" 0;
    mkEntry "READ_ACCESS" 1;
    mkEntry "WRITE_ACCESS" 2;
    mkEntry "RW_ACCESS" 3 ].

Definition AccessRights : EnumDef :=
  {| name := "AccessRights";
     doc := Some access_rights__doc__;
     count := Z.of_nat (length AccessRights_entries);
     text := fun i => entry_text (entry_at AccessRights_entries i);
     value := fun i => entry_value (entry_at AccessRights_entries i) |}.

Section Providers.

Variable L : Library.

Definition Status : EnumDef :=
  {| name := "Status";
     doc := Some status__doc__;
     count := ALARM_NSTATUS L;
     text := fun i => epicsAlarmConditionStrings L i;
     value := fun i => i |}.

Definition Severity : EnumDef :=
  {| name := "Severity";
     doc := Some severity__doc__;
     count := ALARM_NSEV L;
     text := fun i => epicsAlarmSeverityStrings L i;
     value := fun i => i |}.

(** [struct Type]; [Type] is reserved in Rocq. *)
Definition Type_ : EnumDef :=
  {| name := "Type";
     doc := Some field_type__doc__;
     count := dbf_text_dim L - 2;
     text := fun i => ptr_add (dbf_type_to_text L i) 4;
     value := fun i => i |}.

Definition Events_entries : list Entry :=
  [ mkEntry "NONE" 0;
    mkEntry "VALUE" (DBE_VALUE L);
    mkEntry "ARCHIVE" (DBE_ARCHIVE L);
    mkEntry "ALARM" (DBE_ALARM L);
    mkEntry "PROPERTY" (DBE_PROPERTY L);
    mkEntry "ALL"
      (Z.lor (Z.lor (Z.lor (DBE_VALUE L) (DBE_ARCHIVE L)) (DBE_ALARM L))
             (DBE_PROPERTY L)) ].

Definition Events : EnumDef :=
  {| name := "Events";
     doc := Some trigger__doc__;
     count := Z.of_nat (length Events_entries);
     text := fun i => entry_text (entry_at Events_entries i);
     value := fun i => entry_value (entry_at Events_entries i) |}.

End Providers.

(** The five groups that [PyInit_ca] registers. *)
Inductive Group := GSeverity | GStatus | GType | GAccessRights | GEvents.

Definition provider (L : Library) (g : Group) : EnumDef :=
  match g with
  | GSeverity => Severity L
  | GStatus => Status L
  | GType => Type_ L
  | GAccessRights => AccessRights
  | GEvents => Events L
  end.

(** The indices [0 .. count-1] and the pairs a provider describes. *)
Definition indices (n : Z) : list Z := map Z.of_nat (seq 0 (Z.to_nat n)).

Definition pairs_of (d : EnumDef) : list (string * Z) :=
  map (fun i => (text d i, value d i)) (indices (count d)).

(** ** EPICS Base, as its headers define the constants

    [alarm.h]: [epicsAlarmSeverityStrings] and [epicsAlarmConditionStrings];
    [db_access.h]: [dbf_text], [dbf_text_dim] and the macro [dbf_type_to_text];
    [caeventmask.h]: the [DBE_] masks; [epicsTime.h]: the epoch. *)
Module EpicsBase.

Definition severity_strings : list string :=
  [ "NO_ALARM"; "MINOR"; "MAJOR"; "INVALID" ].

Definition condition_strings : list string :=
  [ "NO_ALARM"; "READ"; "WRITE"; "HIHI"; "HIGH"; "LOLO"; "LOW"; "STATE";
    "COS"; "COMM"; "TIMEOUT"; "HWLIMIT"; "CALC"; "SCAN"; "LINK"; "SOFT";
    "BAD_SUB"; "UDF"; "DISABLE"; "SIMM"; "READ_ACCESS"; "WRITE_ACCESS" ].

Definition dbf_text : list string :=
  [ "TYPENOTCONN"; "DBF_STRING"; "DBF_SHORT"; "DBF_FLOAT"; "DBF_ENUM";
    "DBF_CHAR"; "DBF_LONG"; "DBF_DOUBLE"; "DBF_NO_ACCESS" ].

Definition dbf_text_invalid : string := "DBF_invalid".

Definition table (t : list string) (i : Z) : string :=
  if i <? 0 then "" else nth (Z.to_nat i) t "".

Definition type_to_text (type : Z) : string :=
  if (-1 <=? type) && (type <? Z.of_nat (length dbf_text) - 1)
  then table dbf_text (type + 1)
  else dbf_text_invalid.

Definition lib : Library :=
  {| ALARM_NSTATUS := mk_int (Z.of_nat (length condition_strings)) eq_refl;
     epicsAlarmConditionStrings := table condition_strings;
     ALARM_NSEV := mk_int (Z.of_nat (length severity_strings)) eq_refl;
     epicsAlarmSeverityStrings := table severity_strings;
     dbf_text_dim := mk_short (Z.of_nat (length dbf_text)) eq_refl;
     dbf_type_to_text := type_to_text;
     DBE_VALUE := mk_int (Z.shiftl 1 0) eq_refl;
     DBE_ARCHIVE := mk_int (Z.shiftl 1 1) eq_refl;
     DBE_ALARM := mk_int (Z.shiftl 1 2) eq_refl;
     DBE_PROPERTY := mk_int (Z.shiftl 1 3) eq_refl;
     POSIX_TIME_AT_EPICS_EPOCH := 631152000 |}.

End EpicsBase.

(** ** The host runtime

    The part of the CPython C API that [ca.cpp] calls, each function with the
    behaviour the C API reference gives it: what it returns, which references
    it hands out and which it takes over.  A [PyObject*] is an address into a
    heap of objects ([NULL] is [None]); what a call answers that the program
    cannot decide (out of memory, a missing attribute, a rejected member list)
    is read from a schedule of faults, one entry per fallible call; every call
    leaves an event.

    Reference counts are kept as a ledger of the references the extension
    owns.  Deallocation is not modelled: an object stays in the heap when its
    last reference is given up.  Of a module the model keeps the attributes
    that were added to it ([md_dict]) apart from its name and documentation;
    of a type made by a class of [enum], the class, the name and the pairs it
    was made from, and its [__doc__].

    The model ends at the calls.  An import and an attribute lookup answer a
    reference that the model keeps as an object of its own, a note of where
    it came from, not the module or class that the interpreter shares; what a
    class records of the types made from it is left out; and no call looks at
    the error indicator it finds.  What is proved below is about the calls
    made, their arguments and answers, the objects the extension made itself
    and the references it owns, and about the error indicator where a call of
    the extension set or cleared it or none was pending. *)

Abbreviation addr := nat (only parsing).

Inductive PyObject :=
| PyLong (ob_ival : Z)
| PyUnicode (utf8 : string)
| PyTuple_si (item0 : string) (item1 : Z)
| PyList (ob_item : list (option addr))
| PyType (made_by : addr) (tp_name : string)
         (made_from : list (string * Z)) (tp_doc : option string)
| PyModule (m_name : string) (m_doc : string) (md_dict : list (string * addr))
| PyImported (modname : string)
| PyAttribute (owner : addr) (attr : string).

(** The error indicator: the exception a failed call of [api] left behind, or
    the [RuntimeError] that [PyErr_Format] raises. *)
Inductive PyErr :=
| ApiError (api : string)
| PyExc_RuntimeError (msg : string).

Inductive Event :=
| EvModuleCreate (m_name : string) (res : option addr)
| EvAddIntConstant (module : addr) (name : string) (v : Z) (ok : bool)
| EvImportModule (name : string) (res : option addr)
| EvGetAttrString (o : addr) (attr : string) (res : option addr)
| EvErrClear
| EvListNew (len : Z) (res : option addr)
| EvBuildValue (s : string) (i : Z) (res : option addr)
| EvListSetItem (op : addr) (i : Z) (item : addr)
| EvCallFunction (callable : addr) (s : string) (arg : addr)
                 (pairs : option (list (string * Z))) (res : option addr)
| EvUnicodeFromString (s : string) (res : option addr)
| EvSetAttrString (o : addr) (attr : string) (v : addr) (ok : bool)
| EvDecref (o : addr)
| EvAddObject (module : addr) (name : string) (o : addr) (ok : bool)
| EvErrFormat (msg : string).

Record Interp := mkInterp {
  heap : list PyObject;     (* the objects, by address *)
  owned : list addr;        (* the references the extension owns, newest first *)
  err : option PyErr;       (* the error indicator *)
  clock : nat;              (* fallible calls made so far *)
  faults : nat -> bool      (* whether the n-th fallible call fails *)
}.

Definition fails (s : Interp) : bool := faults s (clock s).

Definition tick (s : Interp) : Interp :=
  mkInterp (heap s) (owned s) (err s) (S (clock s)) (faults s).

Definition raise (e : PyErr) (s : Interp) : Interp :=
  mkInterp (heap s) (owned s) (Some e) (clock s) (faults s).

Definition no_error (s : Interp) : Interp :=
  mkInterp (heap s) (owned s) None (clock s) (faults s).

Definition store (o : PyObject) (s : Interp) : Interp :=
  mkInterp (heap s ++ [o]) (owned s) (err s) (clock s) (faults s).

Definition update (a : addr) (o : PyObject) (s : Interp) : Interp :=
  mkInterp (<[a := o]> (heap s)) (owned s) (err s) (clock s) (faults s).

Definition acquire (a : addr) (s : Interp) : Interp :=
  mkInterp (heap s) (a :: owned s) (err s) (clock s) (faults s).

(** Giving up one reference to [a]: the newest one. *)
Fixpoint drop_ref (a : addr) (refs : list addr) : list addr :=
  match refs with
  | [] => []
  | b :: rest => if Nat.eqb a b then rest else b :: drop_ref a rest
  end.

Definition release (a : addr) (s : Interp) : Interp :=
  mkInterp (heap s) (drop_ref a (owned s)) (err s) (clock s) (faults s).

(** Effects: a state transformer that also emits the events of its calls. *)
Definition M (A : Type) : Type := Interp -> A * Interp * list Event.

Definition ret {A} (a : A) : M A := fun s => (a, s, []).

Definition bind {A B} (m : M A) (k : A -> M B) : M B :=
  fun s =>
    let '(a, s1, t1) := m s in
    let '(b, s2, t2) := k a s1 in
    (b, s2, t1 ++ t2).

Notation "x <- m ;; k" := (bind m (fun x => k))
  (at level 100, m at next level, right associativity, only parsing).
Notation "m ;;; k" := (bind m (fun _ => k))
  (at level 100, right associativity, only parsing).

(** A call that returns a new reference to a fresh object, or fails. *)
Definition new_reference (api : string) (o : PyObject)
    (ev : option addr -> Event) : M (option addr) :=
  fun s =>
    if fails s then (None, raise (ApiError api) (tick s), [ev None])
    else
      let a := length (heap s) in
      (Some a, acquire a (store o (tick s)), [ev (Some a)]).

(** [PyList_New(len)]: a list of [len] empty slots; a negative [len] is a
    bad internal call. *)
Definition PyList_New (len : Z) : M (option addr) :=
  fun s =>
    if len <? 0
    then (None, raise (ApiError "PyList_New") s, [EvListNew len None])
    else new_reference "PyList_New"
           (PyList (replicate (Z.to_nat len) None)) (EvListNew len) s.

(** What the format unit [i] reads: a C [int].  [add_enum] passes the
    [long] of [value(i)], of which the low 32 bits are read. *)
Definition to_int (v : Z) : Z := (v + 2 ^ 31) mod 2 ^ 32 - 2 ^ 31.

(** [Py_BuildValue("(si)", s, v)]. *)
Definition Py_BuildValue_si (s : string) (v : Z) : M (option addr) :=
  new_reference "Py_BuildValue" (PyTuple_si s (to_int v)) (EvBuildValue s v).

(** [PyList_SET_ITEM(list, i, item)]: no checks, steals the reference to
    [item]. *)
Definition PyList_SET_ITEM (list : addr) (i : Z) (item : addr) : M unit :=
  fun s =>
    let s1 :=
      match heap s !! list with
      | Some (PyList items) =>
          if i <? 0 then s
          else update list (PyList (<[Z.to_nat i := Some item]> items)) s
      | _ => s
      end in
    (tt, release item s1, [EvListSetItem list i item]).

(** The (name, value) pairs a list of [(si)] tuples holds. *)
Fixpoint read_items (h : list PyObject) (items : list (option addr))
    : option (list (string * Z)) :=
  match items with
  | [] => Some []
  | Some a :: rest =>
      match h !! a, read_items h rest with
      | Some (PyTuple_si s v), Some ps => Some ((s, v) :: ps)
      | _, _ => None
      end
  | None :: _ => None
  end.

Definition read_pairs (h : list PyObject) (op : addr)
    : option (list (string * Z)) :=
  match h !! op with
  | Some (PyList items) => read_items h items
  | _ => None
  end.

(** [PyObject_CallFunction(callable, "sN", s, list)] for a callable that
    makes a type from a name and a list of pairs.  [N] hands the reference to
    [list] over, whether the call succeeds or not. *)
Definition PyObject_CallFunction_sN (callable : addr) (s : string)
    (list : addr) : M (option addr) :=
  fun st =>
    let args := read_pairs (heap st) list in
    let st1 := release list (tick st) in
    match args with
    | Some ps =>
        if fails st
        then (None, raise (ApiError "PyObject_CallFunction") st1,
              [EvCallFunction callable s list args None])
        else
          let a := length (heap st) in
          (Some a, acquire a (store (PyType callable s ps None) st1),
           [EvCallFunction callable s list args (Some a)])
    | None =>
        (None, raise (ApiError "PyObject_CallFunction") st1,
         [EvCallFunction callable s list args None])
    end.

Definition PyUnicode_FromString (u : string) : M (option addr) :=
  new_reference "PyUnicode_FromString" (PyUnicode u) (EvUnicodeFromString u).

(** [PyObject_SetAttrString(o, attr, v)]; of the attributes only [__doc__] of
    a type is kept in the model. *)
Definition PyObject_SetAttrString (o : addr) (attr : string) (v : addr)
    : M Z :=
  fun s =>
    if fails s
    then (-1, raise (ApiError "PyObject_SetAttrString") (tick s),
          [EvSetAttrString o attr v false])
    else
      let s1 :=
        match heap s !! o, heap s !! v with
        | Some (PyType c n ms d), Some (PyUnicode u) =>
            if String.eqb attr "__doc__"
            then update o (PyType c n ms (Some u)) (tick s)
            else tick s
        | _, _ => tick s
        end in
      (0, s1, [EvSetAttrString o attr v true]).

Definition Py_DECREF (o : addr) : M unit :=
  fun s => (tt, release o s, [EvDecref o]).

Definition Py_XDECREF (o : option addr) : M unit :=
  match o with
  | Some a => Py_DECREF a
  | None => ret tt
  end.

(** A dictionary that keeps insertion order. *)
Fixpoint dict_set (d : list (string * addr)) (k : string) (v : addr)
    : list (string * addr) :=
  match d with
  | [] => [(k, v)]
  | (k', v') :: rest =>
      if String.eqb k' k then (k, v) :: rest
      else (k', v') :: dict_set rest k v
  end.

(** [PyModule_AddObject(module, name, o)]: steals the reference to [o] on
    success only. *)
Definition PyModule_AddObject (module : addr) (name : string) (o : addr)
    : M Z :=
  fun s =>
    match heap s !! module with
    | Some (PyModule n d attrs) =>
        if fails s
        then (-1, raise (ApiError "PyModule_AddObject") (tick s),
              [EvAddObject module name o false])
        else
          (0, release o
                (update module (PyModule n d (dict_set attrs name o)) (tick s)),
           [EvAddObject module name o true])
    | _ =>
        (-1, raise (ApiError "PyModule_AddObject") (tick s),
         [EvAddObject module name o false])
    end.

Definition PyErr_Format (msg : string) : M unit :=
  fun s => (tt, raise (PyExc_RuntimeError msg) s, [EvErrFormat msg]).

Definition PyErr_Clear : M unit :=
  fun s => (tt, no_error s, [EvErrClear]).

Record PyModuleDef := mkPyModuleDef {
  def_name : string;
  def_doc : string;
  def_size : Z
}.

Definition PyModule_Create (def : PyModuleDef) : M (option addr) :=
  new_reference "PyModule_Create" (PyModule (def_name def) (def_doc def) [])
    (EvModuleCreate (def_name def)).

(** [PyModule_AddIntConstant(module, name, v)]: makes the integer and puts it
    into the module; the extension never owns it. *)
Definition PyModule_AddIntConstant (module : addr) (name : string) (v : Z)
    : M Z :=
  fun s =>
    match heap s !! module with
    | Some (PyModule n d attrs) =>
        if fails s
        then (-1, raise (ApiError "PyModule_AddIntConstant") (tick s),
              [EvAddIntConstant module name v false])
        else
          let a := length (heap s) in
          (0, update module (PyModule n d (dict_set attrs name a))
                (store (PyLong v) (tick s)),
           [EvAddIntConstant module name v true])
    | _ =>
        (-1, raise (ApiError "PyModule_AddIntConstant") (tick s),
         [EvAddIntConstant module name v false])
    end.

Definition PyImport_ImportModule (name : string) : M (option addr) :=
  new_reference "PyImport_ImportModule" (PyImported name)
    (EvImportModule name).

Definition PyObject_GetAttrString (o : addr) (attr : string)
    : M (option addr) :=
  new_reference "PyObject_GetAttrString" (PyAttribute o attr)
    (EvGetAttrString o attr).

(** ** [add_enum] *)

(** The loop [for (int i = 0; i < count; ++i)], with [n] rounds left. *)
Fixpoint fill_entries (EnumDef : EnumDef) (list : addr) (i : Z) (n : nat)
    : M bool :=
  match n with
  | O => ret true
  | S n' =>
      entry <- Py_BuildValue_si (text EnumDef i) (value EnumDef i) ;;
      match entry with
      | None => Py_DECREF list ;;; ret false
      | Some entry =>
          PyList_SET_ITEM list i entry ;;;
          fill_entries EnumDef list (i + 1) n'
      end
  end.

Definition attach_doc (EnumDef : EnumDef) (type : addr) : M unit :=
  match doc EnumDef with
  | Some d =>
      doc_str <- PyUnicode_FromString d ;;
      match doc_str with
      | Some doc_str =>
          PyObject_SetAttrString type "__doc__" doc_str ;;;
          Py_DECREF doc_str
      | None => ret tt
      end
  | None => ret tt
  end.

Definition add_enum (EnumDef : EnumDef) (module type_class : addr) : M bool :=
  let count := count EnumDef in
  list <- PyList_New count ;;
  match list with
  | None => ret false
  | Some list =>
      filled <- fill_entries EnumDef list 0 (Z.to_nat count) ;;
      if negb filled then ret false
      else
        type <- PyObject_CallFunction_sN type_class (name EnumDef) list ;;
        match type with
        | None => ret false
        | Some type =>
            attach_doc EnumDef type ;;;
            rc <- PyModule_AddObject module (name EnumDef) type ;;
            if negb (rc =? 0)
            then
              PyErr_Format ("Could not add " +:+ name EnumDef +:+ " enum") ;;;
              ret false
            else ret true
        end
  end.

(** ** [PyInit_ca] *)

Definition ca__doc__ : string := "
Low level wrapper module over the libca enums, flags and constants.
".

Definition module_def : PyModuleDef :=
  {| def_name := "ca_client.ca"; def_doc := ca__doc__; def_size := -1 |}.

(** The local variables of [PyInit_ca]. *)
Record Locals := mkLocals {
  module : option addr;
  enum_module : option addr;
  enum_class : option addr;
  flag_class : option addr
}.

Section Init.

Variable L : Library.

(** The five registrations; [inl] is [goto error]. *)
Definition register_all (m em ec fc : addr) : M (Locals + addr) :=
  let v := mkLocals (Some m) (Some em) (Some ec) (Some fc) in
  ok <- add_enum (Severity L) m ec ;;
  if negb ok then ret (inl v) else
  ok <- add_enum (Status L) m ec ;;
  if negb ok then ret (inl v) else
  ok <- add_enum (Type_ L) m ec ;;
  if negb ok then ret (inl v) else
  ok <- add_enum AccessRights m fc ;;
  if negb ok then ret (inl v) else
  ok <- add_enum (Events L) m fc ;;
  if negb ok then ret (inl v) else
  Py_DECREF fc ;;;
  Py_DECREF ec ;;;
  Py_DECREF em ;;;
  ret (inr m).

(** From the first statement up to [return module] or [goto error]. *)
Definition PyInit_body : M (Locals + addr) :=
  module <- PyModule_Create module_def ;;
  match module with
  | None => ret (inl (mkLocals None None None None))
  | Some m =>
      rc <- PyModule_AddIntConstant m "EPICS_EPOCH"
              (POSIX_TIME_AT_EPICS_EPOCH L) ;;
      if negb (rc =? 0)
      then ret (inl (mkLocals (Some m) None None None))
      else
        enum_module <- PyImport_ImportModule "enum" ;;
        match enum_module with
        | None => ret (inl (mkLocals (Some m) None None None))
        | Some em =>
            enum_class <- PyObject_GetAttrString em "Enum" ;;
            match enum_class with
            | None => ret (inl (mkLocals (Some m) (Some em) None None))
            | Some ec =>
                flag_class <- PyObject_GetAttrString em "Flag" ;;
                match flag_class with
                | Some fc => register_all m em ec fc
                | None =>
                    PyErr_Clear ;;;
                    flag_class <- PyObject_GetAttrString em "IntEnum" ;;
                    match flag_class with
                    | Some fc => register_all m em ec fc
                    | None =>
                        ret (inl (mkLocals (Some m) (Some em) (Some ec)
                                    None))
                    end
                end
            end
        end
  end.

(** The label [error:]. *)
Definition error (v : Locals) : M (option addr) :=
  Py_XDECREF (flag_class v) ;;;
  Py_XDECREF (enum_class v) ;;;
  Py_XDECREF (enum_module v) ;;;
  Py_XDECREF (module v) ;;;
  ret None.

Definition PyInit_ca : M (option addr) :=
  r <- PyInit_body ;;
  match r with
  | inl v => error v
  | inr m => ret (Some m)
  end.

End Init.

(** An interpreter in which nothing was allocated yet, with a schedule of
    faults. *)
Definition boot (f : nat -> bool) : Interp := mkInterp [] [] None 0 f.

Definition never : nat -> bool := fun _ => false.
Definition only (k : nat) : nat -> bool := fun n => Nat.eqb n k.

(** ** Reading a run *)

Definition result {A} (r : A * Interp * list Event) : A := fst (fst r).
Definition final {A} (r : A * Interp * list Event) : Interp := snd (fst r).
Definition events {A} (r : A * Interp * list Event) : list Event := snd r.

(** The calls that decide the course of a run. *)
Definition landmark (e : Event) : bool :=
  match e with
  | EvModuleCreate _ _ | EvAddIntConstant _ _ _ _ | EvImportModule _ _
  | EvGetAttrString _ _ _ | EvCallFunction _ _ _ _ _ | EvAddObject _ _ _ _ =>
      true
  | _ => false
  end.

Definition landmarks (tr : list Event) : list Event :=
  List.filter landmark tr.

(** A failure in step 1 (the list and its entries), step 2 (the constructor)
    or step 4 (the installation) of a registration. *)
Definition step_failed (e : Event) : bool :=
  match e with
  | EvListNew _ None | EvBuildValue _ _ None | EvCallFunction _ _ _ _ None
  | EvAddObject _ _ _ false => true
  | _ => false
  end.

(** A failure that ends the initialisation: a failed step of a registration,
    no module, no epoch constant, no [enum] module, no [Enum], or no flag
    class at the second try.  A missing [Flag] and a failure on the way to a
    [__doc__] are not among them. *)
Definition aborts (e : Event) : bool :=
  match e with
  | EvModuleCreate _ None | EvAddIntConstant _ _ _ false
  | EvImportModule _ None => true
  | EvGetAttrString _ a None => negb (String.eqb a "Flag")
  | _ => step_failed e
  end.

(** The documentation step failed to set [__doc__]. *)
Definition doc_set_failed (e : Event) : bool :=
  match e with
  | EvSetAttrString _ a _ false => String.eqb a "__doc__"
  | _ => false
  end.

(** The new references a call of [PyInit_ca] itself receives: the module, the
    imported module, the looked-up classes. *)
Definition acquired (e : Event) : list addr :=
  match e with
  | EvModuleCreate _ (Some a) | EvImportModule _ (Some a)
  | EvGetAttrString _ _ (Some a) => [a]
  | _ => []
  end.

(** What [add_enum] hands to the constructor: the pairs as [(si)] builds
    them. *)
Definition built_pairs (d : EnumDef) : list (string * Z) :=
  map (fun i => (text d i, to_int (value d i))) (indices (count d)).


(** The attributes of the module at [m]. *)
Definition namespace (h : list PyObject) (m : addr)
    : option (list (string * addr)) :=
  match h !! m with
  | Some (PyModule _ _ attrs) => Some attrs
  | _ => None
  end.

(** The pairs the type at [t] was made from: its names with their values,
    aliases among them. *)
Definition type_members (h : list PyObject) (t : addr)
    : option (list (string * Z)) :=
  match h !! t with
  | Some (PyType _ _ ms _) => Some ms
  | _ => None
  end.

(** ** What a run leaves in place *)

Definition is_list (o : PyObject) : bool :=
  match o with
  | PyList _ => true
  | _ => false
  end.

(** Every object of [h] that is not a list is still there, unchanged. *)
Definition kept (h h' : list PyObject) : Prop :=
  forall a o, h !! a = Some o -> is_list o = false -> h' !! a = Some o.

(** Every module of [h] is still there with the same attributes. *)
Definition modules_kept (h h' : list PyObject) : Prop :=
  forall a n d attrs,
    h !! a = Some (PyModule n d attrs) -> h' !! a = Some (PyModule n d attrs).

(** The slots [k .. k+n-1] of [items] hold the tuples of the entries of [d]
    with these indices. *)
Definition slots_filled (d : EnumDef) (h : list PyObject)
    (items : list (option addr)) (k n : nat) : Prop :=
  forall j, (k <= j < k + n)%nat ->
    exists a, items !! j = Some (Some a) /\
      h !! a = Some (PyTuple_si (text d (Z.of_nat j))
                       (to_int (value d (Z.of_nat j)))).

(** The calls of the loop of [add_enum]. *)
Definition loop_event (e : Event) : bool :=
  match e with
  | EvBuildValue _ _ _ | EvListSetItem _ _ _ | EvDecref _ => true
  | _ => false
  end.

(** The calls of [add_enum]. *)
Definition registrar_event (e : Event) : bool :=
  match e with
  | EvListNew _ _ | EvBuildValue _ _ _ | EvListSetItem _ _ _ | EvDecref _
  | EvCallFunction _ _ _ _ _ | EvUnicodeFromString _ _
  | EvSetAttrString _ _ _ _ | EvAddObject _ _ _ _ | EvErrFormat _ => true
  | _ => false
  end.

(** The state after one successful round of the loop. *)
Definition after_round (l : addr) (items : list (option addr)) (i : Z)
    (s_text : string) (v : Z) (s : Interp) : Interp :=
  mkInterp
    (<[l := PyList (<[Z.to_nat i := Some (length (heap s))]> items)]>
       (heap s ++ [PyTuple_si s_text (to_int v)]))
    (owned s) (err s) (S (clock s)) (faults s).

(** The calls of the documentation step. *)
Definition doc_event (e : Event) : bool :=
  match e with
  | EvUnicodeFromString _ _ | EvSetAttrString _ _ _ _ | EvDecref _ => true
  | _ => false
  end.

(** How a call of [add_enum] ends. *)
Inductive Outcome :=
| NoList                          (* no list, or an entry could not be built *)
| NoType (l : addr)               (* the constructor failed *)
| NotInstalled (l t : addr)       (* the module did not take the type *)
| Installed (l t : addr).

Definition installed (o : Outcome) : bool :=
  match o with
  | Installed _ _ => true
  | _ => false
  end.

(** The landmarks of a call of [add_enum], by outcome. *)
Definition outcome_marks (d : EnumDef) (m c : addr) (o : Outcome)
    : list Event :=
  match o with
  | NoList => []
  | NoType l => [EvCallFunction c (name d) l (Some (built_pairs d)) None]
  | NotInstalled l t =>
      [EvCallFunction c (name d) l (Some (built_pairs d)) (Some t);
       EvAddObject m (name d) t false]
  | Installed l t =>
      [EvCallFunction c (name d) l (Some (built_pairs d)) (Some t);
       EvAddObject m (name d) t true]
  end.

(** The references the extension owns after a call of [add_enum]. *)
Definition outcome_owned (o : Outcome) (refs : list addr) : list addr :=
  match o with
  | NotInstalled _ t => t :: refs
  | _ => refs
  end.

(** ** The registrations as a list

    [register_all] written as one loop over the five registrations, to reason
    about them by induction. *)

Fixpoint register_list (rs : list (EnumDef * addr)) (m : addr) : M bool :=
  match rs with
  | [] => ret true
  | (d, c) :: rest =>
      ok <- add_enum d m c ;;
      if negb ok then ret false else register_list rest m
  end.

Definition registrations (L : Library) (ec fc : addr)
    : list (EnumDef * addr) :=
  [ (Severity L, ec); (Status L, ec); (Type_ L, ec);
    (AccessRights, fc); (Events L, fc) ].

(** The landmarks of the registrations [rs] when the first [length ins] of
    them were installed (with these lists and types) and the next one, if
    any, ended as [o]. *)
Fixpoint progress_marks (m : addr) (rs : list (EnumDef * addr))
    (ins : list (addr * addr)) (o : Outcome) : list Event :=
  match rs, ins with
  | (d, c) :: rs', (l, t) :: ins' =>
      outcome_marks d m c (Installed l t) ++ progress_marks m rs' ins' o
  | (d, c) :: _, [] => outcome_marks d m c o
  | [], _ => []
  end.

(** The attributes after these installations. *)
Fixpoint progress_attrs (attrs : list (string * addr))
    (rs : list (EnumDef * addr)) (ins : list (addr * addr))
    : list (string * addr) :=
  match rs, ins with
  | (d, _) :: rs', (_, t) :: ins' =>
      progress_attrs (dict_set attrs (name d) t) rs' ins'
  | _, _ => attrs
  end.

(** ** The course of [PyInit_ca] *)

(** The lookup of the flag class: [Flag], or [IntEnum] after a failed
    [Flag]. *)
Definition flag_lookup (em : addr) (fallback : bool) (res : option addr)
    : list Event :=
  if fallback
  then [EvGetAttrString em "Flag" None; EvErrClear;
        EvGetAttrString em "IntEnum" res]
  else [EvGetAttrString em "Flag" res].

(** The events up to the first registration. *)
Definition prologue (L : Library) (m em ec fc : addr) (fallback : bool)
    : list Event :=
  [EvModuleCreate "ca_client.ca" (Some m);
   EvAddIntConstant m "EPICS_EPOCH" (POSIX_TIME_AT_EPICS_EPOCH L) true;
   EvImportModule "enum" (Some em);
   EvGetAttrString em "Enum" (Some ec)] ++ flag_lookup em fallback (Some fc).

(** The ways through [PyInit_body]: where it stops, with which locals, and
    what it has called. *)
Inductive body_run (L : Library) (s : Interp)
    : Locals + addr -> Interp -> list Event -> Prop :=
| body_no_module s' :
    owned s' = owned s ->
    body_run L s (inl (mkLocals None None None None)) s'
      [EvModuleCreate "ca_client.ca" None]
| body_no_epoch m s' :
    namespace (heap s') m = Some [] ->
    owned s' = m :: owned s ->
    body_run L s (inl (mkLocals (Some m) None None None)) s'
      [EvModuleCreate "ca_client.ca" (Some m);
       EvAddIntConstant m "EPICS_EPOCH" (POSIX_TIME_AT_EPICS_EPOCH L) false]
| body_no_import m a s' :
    namespace (heap s') m = Some [("EPICS_EPOCH", a)] ->
    owned s' = m :: owned s ->
    body_run L s (inl (mkLocals (Some m) None None None)) s'
      [EvModuleCreate "ca_client.ca" (Some m);
       EvAddIntConstant m "EPICS_EPOCH" (POSIX_TIME_AT_EPICS_EPOCH L) true;
       EvImportModule "enum" None]
| body_no_enum m a em s' :
    namespace (heap s') m = Some [("EPICS_EPOCH", a)] ->
    owned s' = em :: m :: owned s ->
    body_run L s (inl (mkLocals (Some m) (Some em) None None)) s'
      [EvModuleCreate "ca_client.ca" (Some m);
       EvAddIntConstant m "EPICS_EPOCH" (POSIX_TIME_AT_EPICS_EPOCH L) true;
       EvImportModule "enum" (Some em);
       EvGetAttrString em "Enum" None]
| body_no_flag m a em ec s' :
    namespace (heap s') m = Some [("EPICS_EPOCH", a)] ->
    owned s' = ec :: em :: m :: owned s ->
    body_run L s (inl (mkLocals (Some m) (Some em) (Some ec) None)) s'
      ([EvModuleCreate "ca_client.ca" (Some m);
        EvAddIntConstant m "EPICS_EPOCH" (POSIX_TIME_AT_EPICS_EPOCH L) true;
        EvImportModule "enum" (Some em);
        EvGetAttrString em "Enum" (Some ec)] ++ flag_lookup em true None)
| body_stopped m a em ec fc fallback ins o tr s' :
    (length ins < 5)%nat ->
    installed o = false ->
    landmarks tr = progress_marks m (registrations L ec fc) ins o ->
    forallb registrar_event tr = true ->
    existsb step_failed tr = true ->
    namespace (heap s') m =
      Some (progress_attrs [("EPICS_EPOCH", a)] (registrations L ec fc) ins) ->
    owned s' = outcome_owned o (fc :: ec :: em :: m :: owned s) ->
    body_run L s (inl (mkLocals (Some m) (Some em) (Some ec) (Some fc))) s'
      (prologue L m em ec fc fallback ++ tr)
| body_done m a em ec fc fallback ins tr s' :
    length ins = 5%nat ->
    landmarks tr = progress_marks m (registrations L ec fc) ins NoList ->
    forallb registrar_event tr = true ->
    existsb step_failed tr = false ->
    namespace (heap s') m =
      Some (progress_attrs [("EPICS_EPOCH", a)] (registrations L ec fc) ins) ->
    owned s' = m :: owned s ->
    body_run L s (inr m) s'
      (prologue L m em ec fc fallback ++ tr ++
       [EvDecref fc; EvDecref ec; EvDecref em]).

(** The non-null locals, in the order [PyInit_ca] acquires them. *)
Definition held (v : Locals) : list addr :=
  option_list (module v) ++ option_list (enum_module v) ++
  option_list (enum_class v) ++ option_list (flag_class v).

(** The lookups of the enumeration facility and of its constructors. *)
Definition lookup_event (e : Event) : bool :=
  match e with
  | EvImportModule _ _ | EvGetAttrString _ _ _ => true
  | _ => false
  end.

(** The steps that build the namespace, without addresses of lists and
    types and without outcomes. *)
Inductive Step :=
| StepCreate (m_name : string)
| StepConstant (name : string) (v : Z)
| StepConstruct (callable : addr) (group : string)
| StepInstall (group : string).

Definition step_of (e : Event) : list Step :=
  match e with
  | EvModuleCreate n _ => [StepCreate n]
  | EvAddIntConstant _ n v _ => [StepConstant n v]
  | EvCallFunction c n _ _ _ => [StepConstruct c n]
  | EvAddObject _ n _ _ => [StepInstall n]
  | _ => []
  end.

Definition steps (tr : list Event) : list Step := flat_map step_of tr.

(** The steps of a complete initialisation with the constructors [ec] and
    [fc]. *)
Definition all_steps (L : Library) (ec fc : addr) : list Step :=
  [ StepCreate "ca_client.ca";
    StepConstant "EPICS_EPOCH" (POSIX_TIME_AT_EPICS_EPOCH L);
    StepConstruct ec "Severity"; StepInstall "Severity";
    StepConstruct ec "Status"; StepInstall "Status";
    StepConstruct ec "Type"; StepInstall "Type";
    StepConstruct fc "AccessRights"; StepInstall "AccessRights";
    StepConstruct fc "Events"; StepInstall "Events" ].

(** An interpreter that holds the module, the imported [enum] module and its
    [Enum] class (at 0, 1 and 2), as [PyInit_ca] has them before the first
    registration. *)
Definition loaded (f : nat -> bool) : Interp :=
  mkInterp
    [PyModule "ca_client.ca" ca__doc__ []; PyImported "enum";
     PyAttribute 1 "Enum"]
    [2; 1; 0]%nat None 0 f.

(** The lookups a run of [PyInit_ca] can make, in the order it makes them. *)
Inductive lookup_course : list Event -> Prop :=
| lookups_none :
    lookup_course []
| lookups_no_module :
    lookup_course [EvImportModule "enum" None]
| lookups_no_Enum em :
    lookup_course
      [EvImportModule "enum" (Some em); EvGetAttrString em "Enum" None]
| lookups_Flag em ec fc :
    lookup_course
      [EvImportModule "enum" (Some em); EvGetAttrString em "Enum" (Some ec);
       EvGetAttrString em "Flag" (Some fc)]
| lookups_IntEnum em ec res :
    lookup_course
      [EvImportModule "enum" (Some em); EvGetAttrString em "Enum" (Some ec);
       EvGetAttrString em "Flag" None; EvGetAttrString em "IntEnum" res].

(** ** More to read off a run *)

(** A call that reported a failure. *)
Definition failed (e : Event) : bool :=
  match e with
  | EvModuleCreate _ None | EvAddIntConstant _ _ _ false
  | EvImportModule _ None | EvGetAttrString _ _ None
  | EvListNew _ None | EvBuildValue _ _ None | EvCallFunction _ _ _ _ None
  | EvUnicodeFromString _ None | EvSetAttrString _ _ _ false
  | EvAddObject _ _ _ false => true
  | _ => false
  end.

(** The module did not take an object. *)
Definition install_failed (e : Event) : bool :=
  match e with
  | EvAddObject _ _ _ false => true
  | _ => false
  end.

(** The message of the [RuntimeError] of [add_enum]. *)
Definition could_not_add (d : EnumDef) : string :=
  "Could not add " +:+ name d +:+ " enum".

(** A provider outside the five of [ca.cpp], to try [add_enum] on values
    that do not fit a C [int]: two members, the second with value
    [2 ^ 32 + 7]. *)
Definition Wide : EnumDef :=
  {| name := "Wide";
     doc := None;
     count := 2;
     text := fun i => if i =? 0 then "SMALL" else "LARGE";
     value := fun i => if i =? 0 then 1 else 2 ^ 32 + 7 |}.

(** The calls that only give up a reference or set the error indicator. *)
Definition cleanup_event (e : Event) : bool :=
  match e with
  | EvDecref _ | EvErrFormat _ => true
  | _ => false
  end.

(** There is an event with [p], and behind the first one there is nothing
    but cleanup. *)
Fixpoint stops_after (p : Event -> bool) (tr : list Event) : bool :=
  match tr with
  | [] => false
  | e :: rest =>
      if p e then forallb cleanup_event rest else stops_after p rest
  end.

(** The lookup of [Flag] found nothing. *)
Definition flag_missing (e : Event) : bool :=
  match e with
  | EvGetAttrString _ a None => String.eqb a "Flag"
  | _ => false
  end.

(** A failure other than a missing [Flag]. *)
Definition other_failed (e : Event) : bool :=
  failed e && negb (flag_missing e).

(** The two ways through [PyInit_body], with the state they reach: it stops
    before the first registration, or it comes to [register_all] with the
    module, the epoch constant and the looked-up classes in place. *)
Inductive body_way (L : Library) (s : Interp)
    : Locals + addr -> Interp -> list Event -> Prop :=
| way_early v s' tr :
    (forall (x : addr) o, heap s !! x = Some o -> heap s' !! x = Some o) ->
    err s' <> None ->
    existsb other_failed tr = true ->
    (forall c nm l ps res, ~ In (EvCallFunction c nm l ps res) tr) ->
    (forall m n v0, In (EvAddIntConstant m n v0 true) tr ->
       exists a, namespace (heap s') m = Some [(n, a)] /\
                 heap s' !! a = Some (PyLong v0)) ->
    stops_after aborts tr = true ->
    body_way L s (inl v) s' tr
| way_register m a em ec fc (fb : bool) s5 :
    namespace (heap s5) m = Some [("EPICS_EPOCH", a)] ->
    heap s5 !! a = Some (PyLong (POSIX_TIME_AT_EPICS_EPOCH L)) ->
    a <> m ->
    (forall (x : addr) o,
       heap s !! x = Some o -> heap s5 !! x = Some o /\ x <> m) ->
    err s5 = (if fb then None else err s) ->
    body_way L s
      (result (register_all L m em ec fc s5))
      (final (register_all L m em ec fc s5))
      (prologue L m em ec fc fb ++ events (register_all L m em ec fc s5)).

(** ** The members of a type made by [enum]

    Which of the names given to [Enum], [IntEnum] or [Flag] become the members
    of the new type, the ones that [len] counts and iteration yields, as the
    [enum] module decides it since CPython 3.11: a name whose value an earlier
    name has is an alias of that name, and for [Flag] so is every name whose
    value is not a single bit (zero, or a union of bits).  An alias is a name
    of the type like any other, but no member. *)








(** ** The objects a run stores into *)

(** The object a call stores into: the module of [PyModule_AddIntConstant]
    and [PyModule_AddObject], the list of [PyList_SET_ITEM], the object of
    [PyObject_SetAttrString]. *)
Definition written (e : Event) : option addr :=
  match e with
  | EvAddIntConstant module _ _ _ => Some module
  | EvListSetItem op _ _ => Some op
  | EvSetAttrString o _ _ _ => Some o
  | EvAddObject module _ _ _ => Some module
  | _ => None
  end.

(** The object a call made: a new module, list, tuple, type or string.  What
    an import or a lookup answers is not new. *)
Definition made (e : Event) : option addr :=
  match e with
  | EvModuleCreate _ res | EvListNew _ res | EvBuildValue _ _ res
  | EvCallFunction _ _ _ _ res | EvUnicodeFromString _ res => res
  | _ => None
  end.

Definition owns (own : list addr) (a : addr) : bool :=
  existsb (Nat.eqb a) own.

(** Every call of [tr] that stores into an object stores into one of [own]
    or into one that an earlier call of [tr] made. *)
Fixpoint stores_own (own : list addr) (tr : list Event) : bool :=
  match tr with
  | [] => true
  | e :: rest =>
      match written e with
      | Some a => owns own a
      | None => true
      end &&
      stores_own (match made e with
                  | Some a => a :: own
                  | None => own
                  end) rest
  end.

(** * Properties *)

(** ** Strings and tables *)

Lemma leading_ptr_add (p : string) (n : nat) :
  p = leading p n +:+ ptr_add p n.
Proof.
  revert p; induction n as [|n IH]; intros p; [reflexivity|].
  destruct p as [|c p]; [reflexivity|].
  change (String c p = String c (leading p n +:+ ptr_add p n)).
  f_equal. apply IH.
Qed.

Lemma ptr_add_length (p : string) (n : nat) :
  String.length (ptr_add p n) = (String.length p - n)%nat.
Proof.
  revert p; induction n as [|n IH]; intros p; cbn.
  - destruct p; cbn; lia.
  - destruct p as [|c p]; [reflexivity|]. cbn. apply IH.
Qed.





Lemma is_int_range (v : Z) : is_int v <-> INT_MIN <= v <= INT_MAX.
Proof. unfold is_int. rewrite andb_true_iff. lia. Qed.

Lemma to_int_id (v : Z) : is_int v -> to_int v = v.
Proof.
  rewrite is_int_range. unfold INT_MIN, INT_MAX, to_int. intros Hv.
  rewrite Z.mod_small; lia.
Qed.

Lemma is_int_lor (x y : Z) : is_int x -> is_int y -> is_int (Z.lor x y).
Proof.
  assert (Hchar : forall v,
            is_int v <-> (Z.shiftr v 31 = 0 \/ Z.shiftr v 31 = -1)).
  { intros v. rewrite is_int_range. unfold INT_MIN, INT_MAX.
    rewrite Z.shiftr_div_pow2 by lia. split.
    - intros Hv. destruct (Z.neg_nonneg_cases v) as [Hn|Hp].
      + right. symmetry.
        apply (Z.div_unique v (2 ^ 31) (-1) (v + 2 ^ 31)); lia.
      + left. apply Z.div_small. lia.
    - pose proof (Z.div_mod v (2 ^ 31) ltac:(lia)) as Hdm.
      pose proof (Z.mod_pos_bound v (2 ^ 31) ltac:(lia)) as Hb.
      intros [H0|H1]; [rewrite H0 in Hdm | rewrite H1 in Hdm]; lia. }
  intros Hx Hy. apply Hchar. rewrite Z.shiftr_lor.
  apply Hchar in Hx, Hy.
  destruct Hx as [-> | ->], Hy as [-> | ->]; cbn; auto.
Qed.

Lemma built_pairs_exact (d : EnumDef) :
  (forall i, 0 <= i < count d -> is_int (value d i)) ->
  built_pairs d = pairs_of d.
Proof.
  intros Hv. unfold built_pairs, pairs_of.
  apply map_ext_in. intros i Hi. f_equal. apply to_int_id, Hv.
  unfold indices in Hi. apply in_map_iff in Hi as (k & <- & Hk).
  apply in_seq in Hk. lia.
Qed.

Lemma provider_values_int (L : Library) (g : Group) (i : Z) :
  0 <= i < count (provider L g) -> is_int (value (provider L g) i).
Proof.
  intros Hi.
  assert (Hlt : forall n, is_int n -> 0 <= i < n -> is_int i).
  { intros n. rewrite !is_int_range. unfold INT_MIN, INT_MAX. lia. }
  destruct g; cbn in *.
  - exact (Hlt _ (int_ok (ALARM_NSEV L)) Hi).
  - exact (Hlt _ (int_ok (ALARM_NSTATUS L)) Hi).
  - apply (Hlt (dbf_text_dim L - 2)); [|done].
    pose proof (short_ok (dbf_text_dim L)) as Hs.
    unfold is_short in Hs. apply andb_true_iff in Hs.
    apply is_int_range. unfold INT_MIN, INT_MAX. lia.
  - assert (i = 0 \/ i = 1 \/ i = 2 \/ i = 3) as Hc by lia.
    destruct Hc as [-> | [-> | [-> | ->]]]; reflexivity.
  - assert (i = 0 \/ i = 1 \/ i = 2 \/ i = 3 \/ i = 4 \/ i = 5) as Hc by lia.
    destruct Hc as [-> | [-> | [-> | [-> | [-> | ->]]]]]; cbn;
      try apply int_ok; [reflexivity|].
    repeat apply is_int_lor; apply int_ok.
Qed.

(** ** The heap *)

Lemma kept_refl (h : list PyObject) : kept h h.
Proof. intros a o Ha _. exact Ha. Qed.

Lemma kept_trans (h1 h2 h3 : list PyObject) :
  kept h1 h2 -> kept h2 h3 -> kept h1 h3.
Proof. intros H12 H23 a o Ha Ho. apply H23; auto. Qed.

Lemma kept_store (h : list PyObject) (o : PyObject) : kept h (h ++ [o]).
Proof. intros a x Ha _. by apply lookup_app_l_Some. Qed.

Lemma kept_update_list (h : list PyObject) (l : addr)
    (items items' : list (option addr)) :
  h !! l = Some (PyList items) -> kept h (<[l := PyList items']> h).
Proof.
  intros Hl a o Ha Ho. destruct (decide (l = a)) as [->|Hne].
  - assert (o = PyList items) as -> by congruence. discriminate.
  - by rewrite list_lookup_insert_ne.
Qed.

Lemma kept_modules (h h' : list PyObject) : kept h h' -> modules_kept h h'.
Proof. intros Hk a n d attrs Ha. by apply Hk. Qed.

Lemma lookup_store_new (h : list PyObject) (o : PyObject) :
  (h ++ [o]) !! length h = Some o.
Proof. by apply list_lookup_middle. Qed.

Lemma drop_ref_newest (a : addr) (refs : list addr) :
  drop_ref a (a :: refs) = refs.
Proof. cbn. by rewrite Nat.eqb_refl. Qed.

Lemma read_items_filled (d : EnumDef) (h : list PyObject)
    (items : list (option addr)) (k : nat) :
  slots_filled d h items 0 (length items) ->
  read_items h (drop k items) =
    Some (map (fun i => (text d i, to_int (value d i)))
            (map Z.of_nat (seq k (length items - k)))).
Proof.
  intros Hf. remember (length items - k)%nat as n eqn:Hn.
  revert k Hn. induction n as [|n IH]; intros k Hn.
  - rewrite drop_ge by lia. reflexivity.
  - destruct (Hf k ltac:(lia)) as (a & Hk & Ha).
    rewrite (drop_S _ _ _ Hk). cbn.
    rewrite Ha, (IH (S k)) by lia. reflexivity.
Qed.

Lemma read_pairs_filled (d : EnumDef) (h : list PyObject) (l : addr)
    (items : list (option addr)) :
  h !! l = Some (PyList items) ->
  length items = Z.to_nat (count d) ->
  slots_filled d h items 0 (length items) ->
  read_pairs h l = Some (built_pairs d).
Proof.
  intros Hl Hlen Hf. unfold read_pairs. rewrite Hl.
  pose proof (read_items_filled d h items 0 Hf) as Hr.
  rewrite drop_0, Nat.sub_0_r, Hlen in Hr. exact Hr.
Qed.

(** ** The loop of [add_enum] *)

Ltac state_simpl :=
  unfold release, update, acquire, store, tick, raise, no_error in *;
  cbn [heap owned err clock faults] in *.

Lemma fill_entries_fail (d : EnumDef) (l : addr) (i : Z) (n : nat)
    (s : Interp) :
  fails s = true ->
  fill_entries d l i (S n) s =
    (false, release l (raise (ApiError "Py_BuildValue") (tick s)),
     [EvBuildValue (text d i) (value d i) None; EvDecref l]).
Proof.
  intros Hf. cbn [fill_entries]. unfold bind, Py_BuildValue_si, new_reference.
  rewrite Hf. reflexivity.
Qed.

Lemma fill_entries_round (d : EnumDef) (l : addr) (i : Z) (n : nat)
    (s : Interp) (items : list (option addr)) :
  fails s = false ->
  heap s !! l = Some (PyList items) ->
  0 <= i ->
  fill_entries d l i (S n) s =
    let r := fill_entries d l (i + 1) n
               (after_round l items i (text d i) (value d i) s) in
    (result r, final r,
     EvBuildValue (text d i) (value d i) (Some (length (heap s)))
       :: EvListSetItem l i (length (heap s)) :: events r).
Proof.
  intros Hf Hl Hi. cbn [fill_entries].
  unfold bind, Py_BuildValue_si, new_reference, PyList_SET_ITEM.
  rewrite Hf. state_simpl.
  rewrite (lookup_app_l_Some _ _ _ _ Hl).
  destruct (Z.ltb_spec i 0) as [?|_]; [lia|].
  state_simpl. rewrite drop_ref_newest. fold (after_round l items i (text d i) (value d i) s).
  destruct (fill_entries d l (i + 1) n _) as [[b s'] tr]. reflexivity.
Qed.

Lemma fill_entries_spec (d : EnumDef) (l : addr) (n : nat) :
  forall (k : nat) (s : Interp) (items : list (option addr)),
    heap s !! l = Some (PyList items) ->
    (k + n <= length items)%nat ->
    let r := fill_entries d l (Z.of_nat k) n s in
    kept (heap s) (heap (final r)) /\
    forallb loop_event (events r) = true /\
    existsb step_failed (events r) = negb (result r) /\
    (result r = true ->
       owned (final r) = owned s /\ err (final r) = err s /\
       exists items',
         heap (final r) !! l = Some (PyList items') /\
         length items' = length items /\
         (forall j, (j < k)%nat -> items' !! j = items !! j) /\
         slots_filled d (heap (final r)) items' k n) /\
    (result r = false ->
       owned (final r) = drop_ref l (owned s) /\
       err (final r) = Some (ApiError "Py_BuildValue")).
Proof.
  induction n as [|n IH]; intros k s items Hl Hlen r.
  - subst r. cbn. repeat split; try discriminate; auto using kept_refl.
    exists items. repeat split; auto. intros j Hj. lia.
  - destruct (fails s) eqn:Hf.
    + subst r. rewrite fill_entries_fail by done. cbn.
      repeat split; try discriminate; auto using kept_refl.
    + subst r. rewrite (fill_entries_round d l _ n s items) by (done || lia).
      set (s1 := after_round l items (Z.of_nat k) _ _ s).
      assert (Hl1 : heap s1 !! l =
                Some (PyList (<[k := Some (length (heap s))]> items))).
      { subst s1. unfold after_round. cbn [heap]. rewrite Nat2Z.id.
        apply list_lookup_insert_eq. rewrite length_app.
        apply lookup_lt_Some in Hl. lia. }
      assert (Hk01 : kept (heap s) (heap s1)).
      { subst s1. unfold after_round. cbn [heap].
        eapply kept_trans; [apply kept_store|].
        eapply kept_update_list. by apply lookup_app_l_Some. }
      replace (Z.of_nat k + 1) with (Z.of_nat (S k)) by lia.
      specialize (IH (S k) s1 _ Hl1). rewrite length_insert in IH.
      specialize (IH ltac:(lia)). cbv zeta in IH.
      destruct IH as (Hk1 & Hev & Hab & Hok & Hko).
      cbv zeta. unfold result, final, events in *. cbn [fst snd] in *.
      destruct (fill_entries d l (Z.of_nat (S k)) n s1) as [[b s'] tr].
      cbn [fst snd] in *.
      split; [eapply kept_trans; eauto|].
      split; [exact Hev|]. split; [exact Hab|]. split; [|exact Hko].
      intros ->.
      destruct Hok as (Ho & He & items' & Hl' & Hlen' & Hold & Hnew); [done|].
      split; [exact Ho|]. split; [exact He|].
      exists items'.
      split; [exact Hl'|]. split; [exact Hlen'|]. split.
      * intros j Hj. rewrite Hold by lia.
        apply list_lookup_insert_ne. lia.
      * intros j Hj. destruct (decide (j = k)) as [->|Hne].
        -- exists (length (heap s)). split.
           ++ rewrite Hold by lia. apply list_lookup_insert_eq. lia.
           ++ apply Hk1; [|done]. subst s1. unfold after_round. cbn [heap].
              rewrite list_lookup_insert_ne.
              { apply lookup_store_new. }
              apply lookup_lt_Some in Hl. lia.
        -- apply Hnew. lia.
Qed.

(** ** Traces *)

Lemma landmarks_app (t1 t2 : list Event) :
  landmarks (t1 ++ t2) = landmarks t1 ++ landmarks t2.
Proof. unfold landmarks. apply List.filter_app. Qed.

Lemma landmarks_none (p : Event -> bool) (tr : list Event) :
  (forall e, p e = true -> landmark e = false) ->
  forallb p tr = true -> landmarks tr = [].
Proof.
  intros Hp. unfold landmarks. induction tr as [|e tr IH]; [reflexivity|].
  cbn. intros [He Htr]%andb_true_iff. rewrite (Hp e He). auto.
Qed.

Lemma existsb_none {A} (p q : A -> bool) (tr : list A) :
  (forall e, p e = true -> q e = false) ->
  forallb p tr = true -> existsb q tr = false.
Proof.
  intros Hp. induction tr as [|e tr IH]; [reflexivity|].
  cbn. intros [He Htr]%andb_true_iff. by rewrite (Hp e He), IH.
Qed.

Lemma forallb_weaken {A} (p q : A -> bool) (tr : list A) :
  (forall e, p e = true -> q e = true) ->
  forallb p tr = true -> forallb q tr = true.
Proof.
  intros Hp. induction tr as [|e tr IH]; [reflexivity|].
  cbn. intros [He Htr]%andb_true_iff. by rewrite (Hp e He), IH.
Qed.

Lemma loop_event_quiet (e : Event) : loop_event e = true -> landmark e = false.
Proof. by destruct e. Qed.

Lemma loop_event_registrar (e : Event) :
  loop_event e = true -> registrar_event e = true.
Proof. by destruct e. Qed.

Lemma loop_event_doc (e : Event) :
  loop_event e = true -> doc_set_failed e = false.
Proof. by destruct e. Qed.

Lemma doc_event_quiet (e : Event) : doc_event e = true -> landmark e = false.
Proof. by destruct e. Qed.

Lemma doc_event_registrar (e : Event) :
  doc_event e = true -> registrar_event e = true.
Proof. by destruct e. Qed.

Lemma doc_event_no_step (e : Event) :
  doc_event e = true -> step_failed e = false.
Proof. by destruct e. Qed.

(** ** The documentation step *)

Lemma attach_doc_spec (d : EnumDef) (t : addr) (s : Interp)
    (c : addr) (n : string) (ms : list (string * Z)) (doc0 : option string) :
  heap s !! t = Some (PyType c n ms doc0) ->
  let r := attach_doc d t s in
  (exists doc', heap (final r) !! t = Some (PyType c n ms doc')) /\
  (forall a o, heap s !! a = Some o -> a <> t ->
     heap (final r) !! a = Some o) /\
  owned (final r) = owned s /\
  forallb doc_event (events r) = true /\
  (existsb doc_set_failed (events r) = true ->
     err (final r) = Some (ApiError "PyObject_SetAttrString")).
Proof.
  intros Ht r. assert (Hr : attach_doc d t s = r) by reflexivity.
  clearbody r. unfold attach_doc in Hr. destruct (doc d) as [u|].
  2: { subst r. cbn. repeat split; eauto; discriminate. }
  unfold bind, PyUnicode_FromString, new_reference in Hr.
  destruct (fails s) eqn:Hf1.
  { subst r. cbn. repeat split; eauto; discriminate. }
  unfold PyObject_SetAttrString, Py_DECREF, fails in Hr. state_simpl.
  destruct (faults s (S (clock s))) eqn:Hf2.
  { subst r. cbn. rewrite Nat.eqb_refl. repeat split; eauto.
    - eexists. by apply lookup_app_l_Some.
    - intros a o Ha _. by apply lookup_app_l_Some. }
  rewrite (lookup_app_l_Some _ _ _ _ Ht), lookup_store_new in Hr.
  cbn in Hr. rewrite Nat.eqb_refl in Hr. subst r. cbn.
  assert (Hlt : (t < length (heap s ++ [PyUnicode u]))%nat).
  { rewrite length_app. apply lookup_lt_Some in Ht. lia. }
  repeat split; eauto; try discriminate.
  - eexists. by apply list_lookup_insert_eq.
  - intros a o Ha Hne. rewrite list_lookup_insert_ne by done.
    by apply lookup_app_l_Some.
Qed.

(** ** [add_enum], outcome by outcome *)

Ltac finish_run H :=
  unfold ret, PyErr_Format in H;
  cbn [negb Z.eqb] in H; cbn beta iota zeta in H; subst.

Ltac trace_simpl :=
  unfold events, result, final; cbn [fst snd];
  rewrite ?landmarks_app, ?forallb_app, ?existsb_app.

Lemma add_enum_spec (d : EnumDef) (m c : addr) (s : Interp) :
  let r := add_enum d m c s in
  exists o : Outcome,
    result r = installed o /\
    landmarks (events r) = outcome_marks d m c o /\
    forallb registrar_event (events r) = true /\
    existsb step_failed (events r) = negb (result r) /\
    owned (final r) = outcome_owned o (owned s) /\
    match o with
    | Installed l t =>
        exists attrs doc',
          namespace (heap (final r)) m =
            Some (dict_set attrs (name d) t) /\
          (forall a1, namespace (heap s) m = Some a1 -> a1 = attrs) /\
          heap (final r) !! t =
            Some (PyType c (name d) (built_pairs d) doc') /\
          (existsb doc_set_failed (events r) = true ->
             err (final r) = Some (ApiError "PyObject_SetAttrString"))
    | _ => modules_kept (heap s) (heap (final r)) /\ err (final r) <> None
    end.
Proof.
  intros r. assert (Hr : add_enum d m c s = r) by reflexivity. clearbody r.
  unfold add_enum, bind, PyList_New in Hr.
  destruct (count d <? 0) eqn:Hc.
  { finish_run Hr. exists NoList. cbn.
    repeat split; try done. intros a n dd attrs Ha. exact Ha. }
  unfold new_reference in Hr. destruct (fails s) eqn:Hf.
  { finish_run Hr. exists NoList. cbn.
    repeat split; try done. intros a n dd attrs Ha. exact Ha. }
  set (l := length (heap s)) in *.
  set (s1 := acquire l (store (PyList (replicate (Z.to_nat (count d)) None))
                          (tick s))) in *.
  assert (Hl1 : heap s1 !! l =
            Some (PyList (replicate (Z.to_nat (count d)) None)))
    by apply lookup_store_new.
  assert (Hk1 : kept (heap s) (heap s1)) by apply kept_store.
  pose proof (fill_entries_spec d l (Z.to_nat (count d)) 0 s1 _ Hl1) as Hloop.
  rewrite length_replicate in Hloop. specialize (Hloop ltac:(lia)).
  change (Z.of_nat 0) with 0 in Hloop. cbv zeta in Hloop.
  destruct (fill_entries d l 0 (Z.to_nat (count d)) s1) as [[ok s2] tr2].
  unfold result, final, events in Hloop. cbn [fst snd] in Hloop.
  destruct Hloop as (Hk2 & Hev2 & Hab2 & Hok & Hko).
  pose proof (landmarks_none _ _ loop_event_quiet Hev2) as Hlm2.
  pose proof (forallb_weaken _ _ _ loop_event_registrar Hev2) as Hreg2.
  destruct ok; cbn [negb] in Hr.
  2: { destruct Hko as (Ho & He); [done|].
       finish_run Hr. exists NoList. trace_simpl. rewrite Hlm2, Hreg2, Hab2. cbn.
       rewrite Ho. subst s1. state_simpl. rewrite drop_ref_newest.
       repeat split; try done.
       - apply kept_modules. eapply kept_trans; eauto.
       - by rewrite He. }
  destruct Hok as (Ho2 & He2 & items' & Hl2 & Hlen2 & _ & Hfill); [done|].
  assert (Hrp : read_pairs (heap s2) l = Some (built_pairs d)).
  { apply (read_pairs_filled d _ l items'); auto.
    rewrite Hlen2. exact Hfill. }
  unfold PyObject_CallFunction_sN in Hr. rewrite Hrp in Hr.
  assert (Hown2 : drop_ref l (owned s2) = owned s).
  { rewrite Ho2. subst s1. state_simpl. apply drop_ref_newest. }
  destruct (fails s2) eqn:Hf2.
  { finish_run Hr. exists (NoType l). trace_simpl. rewrite Hlm2, Hreg2, Hab2. cbn.
    state_simpl. rewrite Hown2.
    repeat split; try done.
    apply kept_modules. eapply kept_trans; eauto. }
  set (t := length (heap s2)) in *.
  set (s3 := acquire t (store (PyType c (name d) (built_pairs d) None)
                          (release l (tick s2)))) in *.
  assert (Ht3 : heap s3 !! t = Some (PyType c (name d) (built_pairs d) None))
    by apply lookup_store_new.
  assert (Hk3 : kept (heap s) (heap s3)).
  { eapply kept_trans; [exact Hk1|]. eapply kept_trans; [exact Hk2|].
    apply kept_store. }
  assert (Hown3 : owned s3 = t :: owned s).
  { subst s3. state_simpl. by rewrite Hown2. }
  pose proof (attach_doc_spec d t s3 _ _ _ _ Ht3) as Hdoc.
  cbv zeta in Hdoc.
  destruct (attach_doc d t s3) as [[[] s4] tr4].
  unfold result, final, events in Hdoc. cbn [fst snd] in Hdoc.
  destruct Hdoc as ((doc' & Ht4) & Hfr4 & Ho4 & Hev4 & Herr4).
  pose proof (landmarks_none _ _ doc_event_quiet Hev4) as Hlm4.
  pose proof (forallb_weaken _ _ _ doc_event_registrar Hev4) as Hreg4.
  pose proof (existsb_none _ _ _ doc_event_no_step Hev4) as Hab4.
  assert (Hmod4 : modules_kept (heap s) (heap s4)).
  { intros a n dd attrs Ha. apply Hfr4.
    - by apply Hk3.
    - intros ->. pose proof (Hk3 _ _ Ha eq_refl) as Ha3. congruence. }
  unfold PyModule_AddObject in Hr.
  assert (Hfail :
    forall s5, r = (false, raise (PyExc_RuntimeError
                             ("Could not add " +:+ name d +:+ " enum"))
                           (raise (ApiError "PyModule_AddObject") (tick s4)),
                    [EvListNew (count d) (Some l)] ++ tr2 ++
                    [EvCallFunction c (name d) l (Some (built_pairs d))
                       (Some t)] ++ tr4 ++
                    [EvAddObject m (name d) t false] ++
                    [EvErrFormat ("Could not add " +:+ name d +:+ " enum")]
                    ++ []) ->
      s5 = s4 ->
      exists o : Outcome,
        result r = installed o /\
        landmarks (events r) = outcome_marks d m c o /\
        forallb registrar_event (events r) = true /\
        existsb step_failed (events r) = negb (result r) /\
        owned (final r) = outcome_owned o (owned s) /\
        match o with
        | Installed l t =>
            exists attrs doc',
              namespace (heap (final r)) m =
                Some (dict_set attrs (name d) t) /\
              (forall a1, namespace (heap s) m = Some a1 -> a1 = attrs) /\
              heap (final r) !! t =
                Some (PyType c (name d) (built_pairs d) doc') /\
              (existsb doc_set_failed (events r) = true ->
                 err (final r) = Some (ApiError "PyObject_SetAttrString"))
        | _ => modules_kept (heap s) (heap (final r)) /\ err (final r) <> None
        end).
  { intros s5 -> _. exists (NotInstalled l t). trace_simpl.
    rewrite Hlm2, Hreg2, Hab2, Hlm4, Hreg4, Hab4. cbn.
    state_simpl. rewrite Ho4, Hown3. repeat split; try done. }
  destruct (heap s4 !! m) as [om|] eqn:Hm4.
  2: { apply (Hfail s4); [|done]. by finish_run Hr. }
  destruct om as [| | | | | n dd attrs | |];
    try (apply (Hfail s4); [|done]; by finish_run Hr).
  destruct (fails s4) eqn:Hf4.
  { apply (Hfail s4); [|done]. by finish_run Hr. }
  clear Hfail. finish_run Hr. exists (Installed l t). trace_simpl.
  rewrite Hlm2, Hreg2, Hab2, Hlm4, Hreg4, Hab4. cbn.
  state_simpl. rewrite Ho4, Hown3, drop_ref_newest.
  assert (Hne : m <> t) by (intros ->; congruence).
  repeat split; try done.
  exists attrs, doc'. repeat split.
  - unfold namespace. rewrite list_lookup_insert_eq; [done|].
    by apply lookup_lt_Some in Hm4.
  - intros a1 Ha. unfold namespace in Ha.
    destruct (heap s !! m) as [[| | | | | n1 d1 a2 | |]|] eqn:Hm; try done.
    apply Hmod4 in Hm. congruence.
  - by rewrite list_lookup_insert_ne.
  - intros Hd. apply Herr4.
    rewrite (existsb_none _ _ _ loop_event_doc Hev2) in Hd.
    cbn in Hd. by rewrite orb_false_r in Hd.
Qed.

(** ** The five registrations *)

Lemma namespace_kept (h h' : list PyObject) (m : addr)
    (attrs : list (string * addr)) :
  modules_kept h h' -> namespace h m = Some attrs ->
  namespace h' m = Some attrs.
Proof.
  unfold namespace. intros Hk Hm.
  destruct (h !! m) as [[| | | | | n d a | |]|] eqn:Ha; try done.
  by rewrite (Hk _ _ _ _ Ha).
Qed.

Lemma register_list_spec (m : addr) (rs : list (EnumDef * addr)) :
  forall (s : Interp) (attrs : list (string * addr)),
    namespace (heap s) m = Some attrs ->
    let r := register_list rs m s in
    exists (ins : list (addr * addr)) (o : Outcome),
      (length ins <= length rs)%nat /\
      installed o = false /\
      result r = (length ins =? length rs)%nat /\
      landmarks (events r) = progress_marks m rs ins o /\
      forallb registrar_event (events r) = true /\
      existsb step_failed (events r) = negb (result r) /\
      namespace (heap (final r)) m = Some (progress_attrs attrs rs ins) /\
      owned (final r) =
        (if result r then owned s else outcome_owned o (owned s)).
Proof.
  induction rs as [|[d c] rs IH]; intros s attrs Hm r.
  { exists [], NoList. subst r. cbn. repeat split; auto. }
  assert (Hr : register_list ((d, c) :: rs) m s = r) by reflexivity.
  clearbody r. cbn [register_list] in Hr. unfold bind in Hr.
  destruct (add_enum_spec d m c s) as (o1 & Hres & Hlm & Hreg & Hab & Hown & Ho).
  destruct (add_enum d m c s) as [[ok s1] tr1].
  unfold result, final, events in *. cbn [fst snd] in *.
  destruct o1 as [|l|l t|l t] eqn:Ho1; cbn [installed] in Hres; subst ok;
    cbn [negb] in Hr.
  1: exists [], NoList.
  2: exists [], (NoType l).
  3: exists [], (NotInstalled l t).
  1-3: finish_run Hr; cbn [fst snd]; rewrite app_nil_r;
       destruct Ho as [Hk _]; cbn;
       repeat split; eauto using namespace_kept; lia.
  destruct Ho as (attrs0 & doc' & Hns & Hsame & _ & _).
  rewrite <- (Hsame _ Hm) in Hns.
  specialize (IH s1 _ Hns). cbv zeta in IH.
  destruct IH as (ins & o & Hlen & Hinst & Hres' & Hlm' & Hreg' & Hab' & Hns' & Hown').
  destruct (register_list rs m s1) as [[ok s2] tr2].
  unfold result, final, events in *. cbn [fst snd] in *.
  finish_run Hr. cbn [fst snd].
  exists ((l, t) :: ins), o.
  rewrite landmarks_app, forallb_app, existsb_app, Hlm, Hreg, Hab, Hreg', Hab'.
  cbn [length progress_marks progress_attrs Nat.eqb negb orb andb].
  rewrite Hlm', Hns', Hown', Hown. cbn [outcome_owned].
  repeat split; auto. lia.
Qed.

Lemma register_all_eq (L : Library) (m em ec fc : addr) (s : Interp) :
  register_all L m em ec fc s =
    let r := register_list (registrations L ec fc) m s in
    if result r
    then (inr m, release em (release ec (release fc (final r))),
          events r ++ [EvDecref fc; EvDecref ec; EvDecref em])
    else (inl (mkLocals (Some m) (Some em) (Some ec) (Some fc)),
          final r, events r).
Proof.
  unfold register_all, registrations, register_list, bind, Py_DECREF.
  cbv zeta. unfold result, final, events.
  repeat match goal with
    | |- context [add_enum ?d ?x ?c ?st] =>
        destruct (add_enum d x c st) as [[[] ?] ?];
        cbn [negb fst snd]; unfold ret; cbn beta iota zeta
    end;
    rewrite ?app_nil_r; repeat rewrite <- app_assoc; reflexivity.
Qed.

(** ** [PyInit_ca], way by way *)

Lemma register_all_run (L : Library) (s0 : Interp) (m a em ec fc : addr)
    (fallback : bool) (s : Interp) :
  namespace (heap s) m = Some [("EPICS_EPOCH", a)] ->
  owned s = fc :: ec :: em :: m :: owned s0 ->
  let r := register_all L m em ec fc s in
  body_run L s0 (result r) (final r)
    (prologue L m em ec fc fallback ++ events r).
Proof.
  intros Hns Hown r. subst r. rewrite register_all_eq. cbv zeta.
  destruct (register_list_spec m (registrations L ec fc) s _ Hns)
    as (ins & o & Hlen & Hinst & Hres & Hlm & Hreg & Hab & Hns' & Hown').
  destruct (register_list (registrations L ec fc) m s) as [[ok s'] tr].
  unfold result, final, events in *. cbn [fst snd] in *.
  change (length (registrations L ec fc)) with 5%nat in *.
  destruct ok; cbn [fst snd].
  - symmetry in Hres. apply Nat.eqb_eq in Hres.
    eapply (body_done L s0 m a em ec fc fallback ins tr); eauto.
    + rewrite Hlm. clear -Hres.
      destruct ins as [|[] [|[] [|[] [|[] [|[] [|]]]]]]; try done.
    + state_simpl. rewrite Hown', Hown. by rewrite !drop_ref_newest.
  - symmetry in Hres. apply Nat.eqb_neq in Hres.
    eapply (body_stopped L s0 m a em ec fc fallback ins o tr); eauto.
    + lia.
    + by rewrite Hown', Hown.
Qed.

Lemma namespace_store (h : list PyObject) (o : PyObject) (m : addr)
    (attrs : list (string * addr)) :
  namespace h m = Some attrs -> namespace (h ++ [o]) m = Some attrs.
Proof. apply namespace_kept, kept_modules, kept_store. Qed.

Lemma namespace_created (h : list PyObject) (n d : string)
    (attrs : list (string * addr)) :
  namespace (h ++ [PyModule n d attrs]) (length h) = Some attrs.
Proof. unfold namespace. by rewrite lookup_store_new. Qed.

Lemma namespace_update (h : list PyObject) (m : addr) (n d : string)
    (attrs : list (string * addr)) :
  (m < length h)%nat ->
  namespace (<[m := PyModule n d attrs]> h) m = Some attrs.
Proof. intros Hm. unfold namespace. by rewrite list_lookup_insert_eq. Qed.

Lemma PyInit_body_run (L : Library) (s : Interp) :
  let r := PyInit_body L s in
  body_run L s (result r) (final r) (events r).
Proof.
  intros r. assert (Hr : PyInit_body L s = r) by reflexivity. clearbody r.
  unfold PyInit_body, bind, PyModule_Create, new_reference in Hr.
  destruct (fails s) eqn:H0.
  { finish_run Hr. cbn. by apply body_no_module. }
  unfold PyModule_AddIntConstant, fails in Hr. state_simpl.
  rewrite lookup_store_new in Hr. cbn [def_name def_doc module_def] in Hr.
  destruct (faults s (S (clock s))) eqn:H1.
  { finish_run Hr. cbn. apply body_no_epoch; [|done].
    apply namespace_created. }
  cbn [negb Z.eqb dict_set] in Hr.
  unfold PyImport_ImportModule, new_reference, fails in Hr. state_simpl.
  set (m := length (heap s)) in *.
  set (h2 := <[m := PyModule "ca_client.ca" ca__doc__
                      [("EPICS_EPOCH", length (heap s ++
                         [PyModule "ca_client.ca" ca__doc__ []]))]]>
               ((heap s ++ [PyModule "ca_client.ca" ca__doc__ []]) ++
                [PyLong (POSIX_TIME_AT_EPICS_EPOCH L)])) in *.
  assert (Hns2 : namespace h2 m = Some [("EPICS_EPOCH",
                   length (heap s ++ [PyModule "ca_client.ca" ca__doc__ []]))]).
  { subst h2. apply namespace_update. rewrite !length_app. cbn. lia. }
  destruct (faults s (S (S (clock s)))) eqn:H2.
  { finish_run Hr. cbn. eapply body_no_import; [exact Hns2|done]. }
  unfold PyObject_GetAttrString, new_reference, fails in Hr. state_simpl.
  destruct (faults s (S (S (S (clock s))))) eqn:H3.
  { finish_run Hr. cbn. eapply body_no_enum; [|done].
    by apply namespace_store. }
  state_simpl.
  destruct (faults s (S (S (S (S (clock s)))))) eqn:H4.
  - unfold PyErr_Clear in Hr. state_simpl.
    destruct (faults s (S (S (S (S (S (clock s))))))) eqn:H5.
    { finish_run Hr. cbn. eapply body_no_flag; [|done].
      by do 2 apply namespace_store. }
    match type of Hr with
    | context [register_all L ?x ?em ?ec ?fc ?st] =>
        pose proof (register_all_run L s x (length (heap s ++
                      [PyModule "ca_client.ca" ca__doc__ []])) em ec fc true st)
          as Hrun;
        destruct (register_all L x em ec fc st) as [[b s'] tr]
    end.
    finish_run Hr. unfold result, final, events in *. cbn [fst snd] in *.
    apply Hrun; [|done]. cbn [heap]. by do 3 apply namespace_store.
  - match type of Hr with
    | context [register_all L ?x ?em ?ec ?fc ?st] =>
        pose proof (register_all_run L s x (length (heap s ++
                      [PyModule "ca_client.ca" ca__doc__ []])) em ec fc false st)
          as Hrun;
        destruct (register_all L x em ec fc st) as [[b s'] tr]
    end.
    finish_run Hr. unfold result, final, events in *. cbn [fst snd] in *.
    apply Hrun; [|done]. cbn [heap]. by do 3 apply namespace_store.
Qed.

Lemma error_events (v : Locals) (s : Interp) :
  events (error v s) = map EvDecref (rev (held v)) /\
  result (error v s) = None.
Proof.
  destruct v as [[m|] [em|] [ec|] [fc|]]; by split.
Qed.

Lemma PyInit_ca_eq (L : Library) (s : Interp) :
  PyInit_ca L s =
    let b := PyInit_body L s in
    match result b with
    | inl v => (None, final (error v (final b)),
                events b ++ map EvDecref (rev (held v)))
    | inr m => (Some m, final b, events b)
    end.
Proof.
  unfold PyInit_ca, bind. cbv zeta.
  destruct (PyInit_body L s) as [[[v|m] s'] tr];
    unfold result, final, events; cbn [fst snd].
  - destruct (error_events v s') as (Hev & Hres).
    destruct (error v s') as [[res s2] tr2].
    unfold result, events in *. cbn [fst snd] in *. by subst.
  - unfold ret. by rewrite app_nil_r.
Qed.

Lemma registrar_aborts (tr : list Event) :
  forallb registrar_event tr = true ->
  existsb aborts tr = existsb step_failed tr.
Proof.
  induction tr as [|e tr IH]; [done|]. cbn.
  intros [He Htr]%andb_true_iff. rewrite IH by done.
  f_equal. by destruct e.
Qed.

Lemma registrar_acquired (tr : list Event) :
  forallb registrar_event tr = true -> flat_map acquired tr = [].
Proof.
  induction tr as [|e tr IH]; [done|]. cbn.
  intros [He Htr]%andb_true_iff. rewrite IH by done.
  by destruct e.
Qed.

Lemma registrar_lookups (tr : list Event) :
  forallb registrar_event tr = true -> List.filter lookup_event tr = [].
Proof.
  induction tr as [|e tr IH]; [done|]. cbn.
  intros [He Htr]%andb_true_iff. rewrite IH by done.
  by destruct e.
Qed.

Lemma registrar_no_clear (tr : list Event) :
  forallb registrar_event tr = true -> ~ In EvErrClear tr.
Proof.
  intros Hreg Hin. rewrite forallb_forall in Hreg.
  by apply Hreg in Hin.
Qed.

Lemma steps_landmarks (tr : list Event) : steps (landmarks tr) = steps tr.
Proof.
  unfold steps, landmarks. induction tr as [|e tr IH]; [done|].
  cbn. destruct e; cbn; by rewrite IH.
Qed.

Lemma steps_app (t1 t2 : list Event) : steps (t1 ++ t2) = steps t1 ++ steps t2.
Proof. apply flat_map_app. Qed.

Lemma in_landmarks (e : Event) (tr : list Event) :
  In e tr -> landmark e = true -> In e (landmarks tr).
Proof. intros Hin He. apply filter_In. auto. Qed.

Lemma body_run_verdict (L : Library) (s s' : Interp)
    (res : Locals + addr) (tr : list Event) :
  body_run L s res s' tr ->
  match res with
  | inl v => existsb aborts tr = true /\ flat_map acquired tr = held v
  | inr m => existsb aborts tr = false
  end.
Proof.
  intros Hrun.
  destruct Hrun as [ | | | | |m a em ec fc [] ins o tr s' _ _ _ Hreg Hab _ _
                   |m a em ec fc [] ins tr s' _ _ Hreg Hab _ _];
    try (split; reflexivity).
  all: rewrite ?existsb_app, ?flat_map_app, ?(registrar_aborts _ Hreg),
         ?(registrar_acquired _ Hreg), ?Hab; cbn; auto.
Qed.

Lemma PyInit_ca_verdict (L : Library) (s : Interp) :
  existsb aborts (events (PyInit_ca L s)) =
    match result (PyInit_ca L s) with
    | None => true
    | Some _ => false
    end.
Proof.
  rewrite PyInit_ca_eq. cbv zeta.
  pose proof (body_run_verdict L s _ _ _ (PyInit_body_run L s)) as Hv.
  destruct (PyInit_body L s) as [[[v|m] s'] tr];
    unfold result, final, events in *; cbn [fst snd] in *.
  - rewrite existsb_app. destruct Hv as [-> _]. reflexivity.
  - exact Hv.
Qed.

(** ** What [add_enum] leaves as it was *)

Lemma in_forallb {A} (p : A -> bool) (tr : list A) (e : A) :
  forallb p tr = true -> In e tr -> p e = true.
Proof. intros Hp Hin. rewrite forallb_forall in Hp. auto. Qed.

Lemma existsb_weaken {A} (p q : A -> bool) (tr : list A) :
  (forall e, p e = true -> q e = true) ->
  existsb q tr = false -> existsb p tr = false.
Proof.
  intros Hpq. induction tr as [|e tr IH]; [done|]. cbn.
  intros [He Htr]%orb_false_iff. rewrite IH by done.
  destruct (p e) eqn:Hp; [|done]. by rewrite (Hpq e Hp) in He.
Qed.

Lemma step_failed_failed (e : Event) :
  step_failed e = true -> failed e = true.
Proof. by destruct e as [| | | | | ? []| ? ? []| | ? ? ? ? []| | | | ? ? ? []|]. Qed.

Lemma loop_event_installs (e : Event) :
  loop_event e = true -> install_failed e = false.
Proof. by destruct e. Qed.

Lemma doc_event_installs (e : Event) :
  doc_event e = true -> install_failed e = false.
Proof. by destruct e. Qed.

Lemma loop_event_no_call (tr : list Event) (c : addr) (n : string) (l : addr)
    (ps : option (list (string * Z))) (res : option addr) :
  forallb loop_event tr = true -> ~ In (EvCallFunction c n l ps res) tr.
Proof. intros Hp Hin. by apply (in_forallb _ _ _ Hp) in Hin. Qed.

Lemma doc_event_no_call (tr : list Event) (c : addr) (n : string) (l : addr)
    (ps : option (list (string * Z))) (res : option addr) :
  forallb doc_event tr = true -> ~ In (EvCallFunction c n l ps res) tr.
Proof. intros Hp Hin. by apply (in_forallb _ _ _ Hp) in Hin. Qed.

Lemma fill_entries_frame (d : EnumDef) (l : addr) (n : nat) :
  forall (i : Z) (s : Interp) (items : list (option addr)),
    heap s !! l = Some (PyList items) -> 0 <= i ->
    forall a o, a <> l -> heap s !! a = Some o ->
      heap (final (fill_entries d l i n s)) !! a = Some o.
Proof.
  induction n as [|n IH]; intros i s items Hl Hi a o Hne Ha; [done|].
  destruct (fails s) eqn:Hf.
  - by rewrite fill_entries_fail.
  - rewrite (fill_entries_round d l i n s items) by done.
    cbv zeta. unfold final at 1. cbn [fst snd].
    apply (IH (i + 1) _ (<[Z.to_nat i := Some (length (heap s))]> items));
      [|lia|done|].
    + unfold after_round. cbn [heap]. apply list_lookup_insert_eq.
      rewrite length_app. apply lookup_lt_Some in Hl. lia.
    + unfold after_round. cbn [heap].
      rewrite list_lookup_insert_ne by done. by apply lookup_app_l_Some.
Qed.

Lemma attach_doc_clean (d : EnumDef) (t : addr) (s : Interp) :
  existsb failed (events (attach_doc d t s)) = false ->
  err (final (attach_doc d t s)) = err s.
Proof.
  unfold attach_doc. destruct (doc d) as [u|]; [|done].
  unfold bind, PyUnicode_FromString, new_reference.
  destruct (fails s) eqn:Hf1; [discriminate|].
  unfold PyObject_SetAttrString, Py_DECREF, fails. state_simpl.
  destruct (faults s (S (clock s))) eqn:Hf2; [discriminate|].
  intros _. unfold final. repeat case_match; reflexivity.
Qed.

Lemma add_enum_frame (d : EnumDef) (m c : addr) (s : Interp) :
  let r := add_enum d m c s in
  (forall a o, heap s !! a = Some o -> a <> m ->
     heap (final r) !! a = Some o) /\
  (existsb failed (events r) = false -> err (final r) = err s) /\
  (existsb install_failed (events r) = true ->
     err (final r) = Some (PyExc_RuntimeError (could_not_add d))) /\
  (forall c' nm l ps t,
     In (EvCallFunction c' nm l ps (Some t)) (events r) ->
     exists doc',
       heap (final r) !! t = Some (PyType c (name d) (built_pairs d) doc')).
Proof.
  intros r. assert (Hr : add_enum d m c s = r) by reflexivity. clearbody r.
  unfold add_enum, bind, PyList_New in Hr.
  destruct (count d <? 0) eqn:Hc.
  { finish_run Hr. cbn. repeat split; try done.
    intros c' nm l ps t Hin. intuition discriminate. }
  unfold new_reference in Hr. destruct (fails s) eqn:Hf.
  { finish_run Hr. cbn. repeat split; try done.
    intros c' nm l ps t Hin. intuition discriminate. }
  set (l := length (heap s)) in *.
  set (s1 := acquire l (store (PyList (replicate (Z.to_nat (count d)) None))
                          (tick s))) in *.
  assert (Hl1 : heap s1 !! l =
            Some (PyList (replicate (Z.to_nat (count d)) None)))
    by apply lookup_store_new.
  assert (Hfr1 : forall a o, heap s !! a = Some o ->
                   heap s1 !! a = Some o /\ a <> l).
  { intros a o Ha. split; [by apply lookup_app_l_Some|].
    apply lookup_lt_Some in Ha. subst l. lia. }
  pose proof (fill_entries_spec d l (Z.to_nat (count d)) 0 s1 _ Hl1) as Hloop.
  rewrite length_replicate in Hloop. specialize (Hloop ltac:(lia)).
  change (Z.of_nat 0) with 0 in Hloop. cbv zeta in Hloop.
  pose proof (fill_entries_frame d l (Z.to_nat (count d)) 0 s1 _ Hl1
                ltac:(lia)) as Hfr2.
  destruct (fill_entries d l 0 (Z.to_nat (count d)) s1) as [[ok s2] tr2].
  unfold result, final, events in Hloop, Hfr2. cbn [fst snd] in Hloop, Hfr2.
  destruct Hloop as (_ & Hev2 & Hab2 & Hok & Hko).
  assert (Hfr02 : forall a o, heap s !! a = Some o -> heap s2 !! a = Some o).
  { intros a o Ha. destruct (Hfr1 a o Ha). by apply Hfr2. }
  pose proof (existsb_none _ _ _ loop_event_installs Hev2) as Hin2.
  pose proof (fun c' nm l' ps res =>
                loop_event_no_call tr2 c' nm l' ps res Hev2) as Hnc2.
  destruct ok; cbn [negb] in Hr.
  2: { finish_run Hr. trace_simpl. rewrite Hin2. cbn.
       split; [by auto|]. split.
       { intros Hno. rewrite orb_false_r in Hno.
         apply (existsb_weaken _ _ _ step_failed_failed) in Hno.
         by rewrite Hab2 in Hno. }
       split; [done|].
       intros c' nm l' ps t [Hin|Hin]; [discriminate|].
       apply in_app_or in Hin as [Hin|[]]. by apply Hnc2 in Hin. }
  destruct Hok as (_ & He2 & items' & Hl2 & Hlen2 & _ & Hfill); [done|].
  assert (Hrp : read_pairs (heap s2) l = Some (built_pairs d)).
  { apply (read_pairs_filled d _ l items'); auto.
    rewrite Hlen2. exact Hfill. }
  unfold PyObject_CallFunction_sN in Hr. rewrite Hrp in Hr.
  destruct (fails s2) eqn:Hf2.
  { finish_run Hr. trace_simpl. rewrite Hin2. cbn.
    split; [by auto|]. split; [by rewrite orb_true_r|]. split; [done|].
    intros c' nm l' ps t [Hin|Hin]; [discriminate|].
    apply in_app_or in Hin as [Hin|Hin]; [by apply Hnc2 in Hin|].
    cbn in Hin. intuition discriminate. }
  set (t := length (heap s2)) in *.
  set (s3 := acquire t (store (PyType c (name d) (built_pairs d) None)
                          (release l (tick s2)))) in *.
  assert (Ht3 : heap s3 !! t = Some (PyType c (name d) (built_pairs d) None))
    by apply lookup_store_new.
  assert (Herr3 : err s3 = err s).
  { subst s3 s1. state_simpl. by rewrite He2. }
  pose proof (attach_doc_spec d t s3 _ _ _ _ Ht3) as Hdoc.
  pose proof (attach_doc_clean d t s3) as Hclean.
  cbv zeta in Hdoc.
  destruct (attach_doc d t s3) as [[[] s4] tr4].
  unfold result, final, events in Hdoc, Hclean. cbn [fst snd] in Hdoc, Hclean.
  destruct Hdoc as ((doc' & Ht4) & Hfr4 & _ & Hev4 & _).
  pose proof (existsb_none _ _ _ doc_event_installs Hev4) as Hin4.
  pose proof (fun c' nm l' ps res =>
                doc_event_no_call tr4 c' nm l' ps res Hev4) as Hnc4.
  assert (Hfr04 : forall a o, heap s !! a = Some o -> heap s4 !! a = Some o).
  { intros a o Ha. apply Hfr4.
    - apply lookup_app_l_Some. by apply Hfr02.
    - apply Hfr02, lookup_lt_Some in Ha. subst t. lia. }
  assert (Hcall : forall c' nm l' ps t' tail,
            In (EvCallFunction c' nm l' ps (Some t'))
               ([EvListNew (count d) (Some l)] ++ tr2 ++
                [EvCallFunction c (name d) l (Some (built_pairs d)) (Some t)]
                ++ tr4 ++ tail) ->
            (forall e, In e tail -> landmark e = true ->
               exists x y z b, e = EvAddObject x y z b) ->
            t' = t).
  { intros c' nm l' ps t' tail Hin Htail. cbn [app] in Hin.
    destruct Hin as [Hin|Hin]; [discriminate|].
    apply in_app_or in Hin as [Hin|Hin]; [by apply Hnc2 in Hin|].
    destruct Hin as [Hin|Hin]; [by injection Hin|].
    apply in_app_or in Hin as [Hin|Hin]; [by apply Hnc4 in Hin|].
    destruct (Htail _ Hin eq_refl) as (x & y & z & b & Heq). discriminate. }
  unfold PyModule_AddObject in Hr.
  assert (Hfail :
    r = (false, raise (PyExc_RuntimeError
                         ("Could not add " +:+ name d +:+ " enum"))
                  (raise (ApiError "PyModule_AddObject") (tick s4)),
         [EvListNew (count d) (Some l)] ++ tr2 ++
         [EvCallFunction c (name d) l (Some (built_pairs d)) (Some t)] ++
         tr4 ++ [EvAddObject m (name d) t false] ++
         [EvErrFormat ("Could not add " +:+ name d +:+ " enum")] ++ []) ->
    (forall a o, heap s !! a = Some o -> a <> m ->
       heap (final r) !! a = Some o) /\
    (existsb failed (events r) = false -> err (final r) = err s) /\
    (existsb install_failed (events r) = true ->
       err (final r) = Some (PyExc_RuntimeError (could_not_add d))) /\
    (forall c' nm l ps t,
       In (EvCallFunction c' nm l ps (Some t)) (events r) ->
       exists doc',
         heap (final r) !! t = Some (PyType c (name d) (built_pairs d) doc'))).
  { intros ->. trace_simpl. cbn [heap err raise tick].
    split; [by auto|]. split.
    { cbn. rewrite !orb_true_r. discriminate. }
    split; [done|].
    intros c' nm l' ps t' Hin. apply Hcall in Hin as ->; [by eauto|].
    intros e [<-|[<-|[]]]; [by eauto|discriminate]. }
  destruct (heap s4 !! m) as [om|] eqn:Hm4.
  2: { apply Hfail. by finish_run Hr. }
  destruct om as [| | | | | n dd attrs | |];
    try (apply Hfail; by finish_run Hr).
  destruct (fails s4) eqn:Hf4.
  { apply Hfail. by finish_run Hr. }
  clear Hfail. finish_run Hr. trace_simpl. state_simpl.
  rewrite Hin2, Hin4. cbn [existsb install_failed orb].
  assert (Hne : m <> t) by (intros ->; congruence).
  split.
  { intros a o Ha Hna. rewrite list_lookup_insert_ne by done. by apply Hfr04. }
  split.
  { intros Hno. rewrite <- Herr3. apply Hclean.
    cbn in Hno. apply orb_false_iff in Hno as [_ Hno].
    apply orb_false_iff in Hno as [Hno _]. exact Hno. }
  split; [discriminate|].
  intros c' nm l' ps t' Hin. apply Hcall in Hin as ->.
  - exists doc'. by rewrite list_lookup_insert_ne.
  - intros e [<-|[]]; by eauto.
Qed.

(** ** The members a class of [enum] keeps *)








(** * Main results *)




(** What the missing [Py_DECREF] costs: whenever the module does not take
    the type, [add_enum] returns with the reference to the type still its
    own. *)
Lemma add_enum_not_installed_owns_type (d : EnumDef) (m c : addr)
    (s : Interp) (n : string) (t : addr) :
  let r := add_enum d m c s in
  In (EvAddObject m n t false) (events r) ->
  result r = false /\ owned (final r) = t :: owned s.
Proof.
  intros r Hin.
  destruct (add_enum_spec d m c s) as (o & Hres & Hlm & _ & _ & Hown & _).
  fold r in Hres, Hlm, Hown.
  apply in_landmarks in Hin; [|done]. rewrite Hlm in Hin.
  destruct o; cbn in Hin; try (intuition congruence).
  destruct Hin as [?|[Heq|[]]]; [done|]. injection Heq as <- <-.
  by rewrite Hres, Hown.
Qed.

(** C2: in [loaded (only 8)] the ninth fallible call, [PyModule_AddObject],
    fails.  [add_enum] then returns [false] while it still owns the reference
    to the type at address 8: no [Py_DECREF] of the type was made.  On the
    sibling error path, a failed [Py_BuildValue] in [loaded (only 3)], the list
    is released and nothing stays owned. *)
Theorem install_failure_keeps_type :
  let s := loaded (only 8) in
  let r := add_enum AccessRights 0 2 s in
  result r = false /\
  In (EvAddObject 0 "AccessRights" 8 false) (events r) /\
  ~ In (EvDecref 8) (events r) /\
  owned (final r) = (8 :: owned s)%nat /\
  type_members (heap (final r)) 8 = Some (pairs_of AccessRights) /\
  namespace (heap (final r)) 0 = Some [] /\
  let r' := add_enum AccessRights 0 2 (loaded (only 3)) in
  result r' = false /\ In (EvDecref 3) (events r') /\
  owned (final r') = owned (loaded (only 3)).
Proof.
  vm_compute. repeat split; auto 20.
  intros H. repeat (destruct H as [H|H]; [discriminate|]). exact H.
Qed.

(** C3: if no call of step 1 (the list and its entries), step 2 (the
    constructor) or step 4 (the installation) fails, [add_enum] returns
    [true], whatever [PyUnicode_FromString] and [PyObject_SetAttrString]
    answered for the documentation. *)
Theorem doc_failure_never_aborts (d : EnumDef) (m c : addr) (s : Interp) :
  existsb step_failed (events (add_enum d m c s)) = false ->
  result (add_enum d m c s) = true.
Proof.
  intros Hno.
  destruct (add_enum_spec d m c s) as (_ & _ & _ & _ & Hab & _).
  rewrite Hno in Hab. by destruct (result (add_enum d m c s)).
Qed.

Lemma doc_failure_never_aborts_witness :
  existsb doc_set_failed
    (events (add_enum AccessRights 0 2 (loaded (only 7)))) = true /\
  In (EvUnicodeFromString access_rights__doc__ None)
    (events (add_enum AccessRights 0 2 (loaded (only 6)))) /\
  result (add_enum AccessRights 0 2 (loaded (only 7))) = true /\
  result (add_enum AccessRights 0 2 (loaded (only 6))) = true.
Proof.
  split; [reflexivity|]. split; [vm_compute; auto 20|]. split.
  - apply (doc_failure_never_aborts AccessRights 0 2 (loaded (only 7))).
    reflexivity.
  - apply (doc_failure_never_aborts AccessRights 0 2 (loaded (only 6))).
    reflexivity.
Defined.

(** C10: when [PyObject_SetAttrString] fails for [__doc__], [add_enum] makes
    no call of [PyErr_Clear] and returns with the error indicator set; if no
    call of steps 1, 2 and 4 fails it returns [true] and the indicator still
    holds the error of [PyObject_SetAttrString]. *)
Theorem doc_failure_leaves_error (d : EnumDef) (m c : addr) (s : Interp) :
  let r := add_enum d m c s in
  existsb doc_set_failed (events r) = true ->
  ~ In EvErrClear (events r) /\
  err (final r) <> None /\
  (existsb step_failed (events r) = false ->
     result r = true /\
     err (final r) = Some (ApiError "PyObject_SetAttrString")).
Proof.
  intros r Hdoc.
  destruct (add_enum_spec d m c s) as (o & Hres & _ & Hreg & Hab & _ & Ho).
  fold r in Hres, Hreg, Hab, Ho.
  split; [by apply registrar_no_clear|].
  assert (Herr : installed o = true ->
                 err (final r) = Some (ApiError "PyObject_SetAttrString")).
  { destruct o as [| | |l t]; try discriminate. intros _.
    destruct Ho as (attrs & doc' & _ & _ & _ & He). by apply He. }
  split.
  - destruct o; try (by destruct Ho). rewrite Herr; done.
  - intros Hno. rewrite Hno in Hab.
    destruct (result r); [|discriminate]. split; [done|]. by apply Herr.
Qed.

Lemma doc_failure_leaves_error_witness :
  result (add_enum AccessRights 0 2 (loaded (only 7))) = true /\
  err (final (add_enum AccessRights 0 2 (loaded (only 7)))) =
    Some (ApiError "PyObject_SetAttrString").
Proof.
  destruct (doc_failure_leaves_error AccessRights 0 2 (loaded (only 7))
              eq_refl) as (_ & _ & Hok).
  apply Hok. reflexivity.
Defined.

(** C6: the count of the [Type] group is [dbf_text_dim - 2]; the name of its
    member [i] is what is left of [dbf_type_to_text(i)] behind its first four
    characters, so that the library's name is those four characters followed
    by the member name; these are the names of the pairs of the group. *)
Theorem Type_count_and_names (L : Library) :
  count (Type_ L) = dbf_text_dim L - 2 /\
  (forall i, text (Type_ L) i = ptr_add (dbf_type_to_text L i) 4) /\
  (forall i,
     dbf_type_to_text L i =
       leading (dbf_type_to_text L i) 4 +:+ text (Type_ L) i /\
     String.length (text (Type_ L) i) =
       (String.length (dbf_type_to_text L i) - 4)%nat) /\
  map fst (pairs_of (Type_ L)) =
    map (fun i => ptr_add (dbf_type_to_text L i) 4)
      (indices (dbf_text_dim L - 2)).
Proof.
  repeat split.
  - apply leading_ptr_add.
  - apply ptr_add_length.
  - unfold pairs_of. by rewrite map_map.
Qed.

(** C7: in the [AccessRights] table [RW_ACCESS] is 3, the bitwise or of
    [READ_ACCESS] (1) and [WRITE_ACCESS] (2); in the [Events] table [NONE] is
    0 and [ALL] is the bitwise or of [VALUE], [ARCHIVE], [ALARM] and
    [PROPERTY]. *)
Theorem flag_tables (L : Library) :
  (exists r w rw,
     entry_named AccessRights_entries "READ_ACCESS" = Some r /\
     entry_named AccessRights_entries "WRITE_ACCESS" = Some w /\
     entry_named AccessRights_entries "RW_ACCESS" = Some rw /\
     r = 1 /\ w = 2 /\ rw = 3 /\ rw = Z.lor r w) /\
  entry_named (Events_entries L) "NONE" = Some 0 /\
  (exists v a al p all,
     entry_named (Events_entries L) "VALUE" = Some v /\
     entry_named (Events_entries L) "ARCHIVE" = Some a /\
     entry_named (Events_entries L) "ALARM" = Some al /\
     entry_named (Events_entries L) "PROPERTY" = Some p /\
     entry_named (Events_entries L) "ALL" = Some all /\
     all = Z.lor (Z.lor (Z.lor v a) al) p) /\
  pairs_of AccessRights =
    [("NO_ACCESS", 0); ("READ_ACCESS", 1); ("WRITE_ACCESS", 2);
     ("RW_ACCESS", 3)] /\
  pairs_of (Events L) =
    [("NONE", 0); ("VALUE", int_val (DBE_VALUE L));
     ("ARCHIVE", int_val (DBE_ARCHIVE L));
     ("ALARM", int_val (DBE_ALARM L));
     ("PROPERTY", int_val (DBE_PROPERTY L));
     ("ALL", Z.lor (Z.lor (Z.lor (DBE_VALUE L) (DBE_ARCHIVE L))
                      (DBE_ALARM L)) (DBE_PROPERTY L))].
Proof.
  split; [|split; [|split; [|split]]]; try reflexivity.
  - exists 1, 2, 3. repeat split.
  - do 5 eexists. repeat split.
Qed.

Lemma drop_ref_second (a t : addr) (refs : list addr) :
  drop_ref a (t :: a :: refs) = t :: refs.
Proof.
  cbn. destruct (Nat.eqb a t) eqn:Hat.
  - apply Nat.eqb_eq in Hat. by subst.
  - by rewrite Nat.eqb_refl.
Qed.

Lemma body_run_ledger (L : Library) (s s' : Interp) (v : Locals)
    (tr : list Event) :
  body_run L s (inl v) s' tr ->
  owned (final (error v s')) = owned s \/
  exists t, owned (final (error v s')) = t :: owned s.
Proof.
  intros Hrun. inversion Hrun as
    [s1 Ho| m s1 _ Ho | m a s1 _ Ho | m a em s1 _ Ho | m a em ec s1 _ Ho
    | m a em ec fc fb ins o tr1 s1 _ _ _ _ _ _ Ho | ]; subst;
    unfold final; cbn -[drop_ref]; rewrite Ho.
  6: destruct o; cbn [outcome_owned];
       [left | left | right; exists t | left];
       rewrite ?drop_ref_second, ?drop_ref_newest; reflexivity.
  all: left; rewrite ?drop_ref_newest; reflexivity.
Qed.

(** C8: when a failure ends the initialisation, [PyInit_ca] returns [NULL],
    and what it calls is the body followed by one [Py_DECREF] for each
    reference the body acquired (the module, the [enum] module, [Enum], the
    flag class), the last acquired first; after that the extension owns none
    of them: its ledger is the one it started with, but for the reference to
    a type that a failed installation left. *)
Theorem failure_releases_references (L : Library) (s : Interp) :
  let r := PyInit_ca L s in
  let body := events (PyInit_body L s) in
  existsb aborts (events r) = true ->
  result r = None /\
  events r = body ++ map EvDecref (rev (flat_map acquired body)) /\
  (owned (final r) = owned s \/ exists t, owned (final r) = t :: owned s).
Proof.
  intros r body Hab. subst r body.
  rewrite PyInit_ca_verdict in Hab. revert Hab.
  rewrite PyInit_ca_eq. cbv zeta.
  pose proof (PyInit_body_run L s) as Hrun. cbv zeta in Hrun.
  pose proof (body_run_verdict L s _ _ _ Hrun) as Hv.
  destruct (PyInit_body L s) as [[[v|m] s'] tr];
    unfold result, final, events in *; cbn [fst snd] in *; [|discriminate].
  intros _. destruct Hv as [_ ->]. repeat split.
  exact (body_run_ledger L s s' v tr Hrun).
Qed.

Lemma failure_releases_references_witness :
  result (PyInit_ca EpicsBase.lib (boot (only 30))) = None /\
  events (PyInit_ca EpicsBase.lib (boot (only 30))) =
    events (PyInit_body EpicsBase.lib (boot (only 30))) ++
    [EvDecref 4; EvDecref 3; EvDecref 2; EvDecref 0]%nat.
Proof.
  destruct (failure_releases_references EpicsBase.lib (boot (only 30))
              eq_refl) as (Hres & Hev & _).
  split; [exact Hres|]. exact Hev.
Defined.

(** C9: if [PyModule_AddObject] refuses the type of the group [Type], the
    body of [PyInit_ca] goes to [error], and at that point the module holds
    exactly [EPICS_EPOCH], [Severity] and [Status], in this order, the two
    groups bound to the types that were installed for them; [PyInit_ca]
    returns [NULL]. *)
Theorem third_group_rejected (L : Library) (s : Interp) (m t : addr) :
  let b := PyInit_body L s in
  let r := PyInit_ca L s in
  In (EvAddObject m "Type" t false) (events b) ->
  (exists v, result b = inl v) /\
  result r = None /\
  exists e t1 t2,
    namespace (heap (final b)) m =
      Some [("EPICS_EPOCH", e); ("Severity", t1); ("Status", t2)] /\
    In (EvAddObject m "Severity" t1 true) (events b) /\
    In (EvAddObject m "Status" t2 true) (events b).
Proof.
  intros b r Hin. subst r. rewrite PyInit_ca_eq. fold b. cbv zeta.
  pose proof (PyInit_body_run L s) as Hrun. fold b in Hrun. cbv zeta in Hrun.
  destruct b as [[res s'] tr]. unfold result, final, events in *.
  cbn [fst snd] in *.
  assert (Hmark : forall tr1 m1 ec fc ins o,
            landmarks tr1 = progress_marks m1 (registrations L ec fc) ins o ->
            In (EvAddObject m "Type" t false) tr1 ->
            In (EvAddObject m "Type" t false)
               (progress_marks m1 (registrations L ec fc) ins o)).
  { intros tr1 m1 ec fc ins o Hlm Hin1. rewrite <- Hlm.
    by apply in_landmarks. }
  destruct Hrun as
    [s1 _| m1 s1 _ _ | m1 a s1 _ _ | m1 a em s1 _ _ | m1 a em ec s1 _ _
    | m1 a em ec fc fb ins o tr1 s1 Hlen Hinst Hlm Hreg _ Hns _
    | m1 a em ec fc fb ins tr1 s1 Hlen Hlm Hreg _ _ _ ].
  1-5: cbn in Hin; intuition discriminate.
  - apply in_app_or in Hin as [Hin|Hin].
    { destruct fb; cbn in Hin; intuition discriminate. }
    pose proof (Hmark _ _ _ _ _ _ Hlm Hin) as Hpm.
    assert (Hshape : exists l1 t1 l2 t2 l3,
              ins = [(l1, t1); (l2, t2)] /\ o = NotInstalled l3 t /\ m1 = m).
    { clear -Hpm Hlen Hinst.
      destruct ins as [|[l1 t1] [|[l2 t2] [|[l3 t3] [|[l4 t4] [|[l5 t5] ins]]]]];
        cbn in Hlen; try lia;
        destruct o as [|l|l t0|l t0]; try discriminate;
        cbn in Hpm; repeat (destruct Hpm as [Hpm|Hpm]; try discriminate);
        try done.
      injection Hpm as -> ->. by exists l1, t1, l2, t2, l. }
    destruct Hshape as (l1 & t1 & l2 & t2 & l3 & -> & -> & ->).
    split; [eauto|]. split; [done|].
    exists a, t1, t2. split; [exact Hns|].
    assert (Hsub : forall e, In e (landmarks tr1) ->
                     In e (prologue L m em ec fc fb ++ tr1)).
    { intros e He. apply in_or_app. right.
      apply filter_In in He. tauto. }
    split; apply Hsub; rewrite Hlm; cbn; auto 10.
  - apply in_app_or in Hin as [Hin|Hin].
    { destruct fb; cbn in Hin; intuition discriminate. }
    apply in_app_or in Hin as [Hin|Hin].
    2: { cbn in Hin. intuition discriminate. }
    pose proof (Hmark _ _ _ _ _ _ Hlm Hin) as Hpm. exfalso.
    clear -Hpm Hlen.
    destruct ins as [|[l1 t1] [|[l2 t2] [|[l3 t3] [|[l4 t4] [|[l5 t5] [|]]]]]];
      try discriminate.
    cbn in Hpm. repeat (destruct Hpm as [Hpm|Hpm]; try discriminate). done.
Qed.

Lemma third_group_rejected_witness :
  result (PyInit_ca EpicsBase.lib (boot (only 52))) = None /\
  namespace (heap (final (PyInit_body EpicsBase.lib (boot (only 52))))) 0 =
    Some [("EPICS_EPOCH", 1); ("Severity", 10); ("Status", 35)]%nat.
Proof.
  destruct (third_group_rejected EpicsBase.lib (boot (only 52)) 0 45)
    as (_ & Hres & e & t1 & t2 & Hns & _).
  - vm_compute. repeat (first [left; reflexivity | right]).
  - split; [exact Hres|]. vm_compute. reflexivity.
Defined.

Lemma steps_decrefs (refs : list addr) : steps (map EvDecref refs) = [].
Proof. by induction refs. Qed.

Lemma steps_registrations (L : Library) (m ec fc : addr) (tr : list Event)
    (ins : list (addr * addr)) (o : Outcome) :
  landmarks tr = progress_marks m (registrations L ec fc) ins o ->
  steps tr = steps (progress_marks m (registrations L ec fc) ins o).
Proof. intros <-. symmetry. apply steps_landmarks. Qed.

(** C4: in every run of [PyInit_ca] the steps that build the namespace are
    an initial part of: create the module, add [EPICS_EPOCH] with the value
    [POSIX_TIME_AT_EPICS_EPOCH], then construct and install [Severity],
    [Status] and [Type] with one callable and [AccessRights] and [Events]
    with another.  In a run that returns the module all these steps are
    made, each one succeeds, the first callable is what the lookup of [Enum]
    gave and the second what the lookup of the flag class gave. *)
Theorem initialization_order (L : Library) (s : Interp) :
  let r := PyInit_ca L s in
  (exists ec fc, steps (events r) `prefix_of` all_steps L ec fc) /\
  (forall m, result r = Some m ->
     exists em ec fc fallback l1 t1 l2 t2 l3 t3 l4 t4 l5 t5,
       steps (events r) = all_steps L ec fc /\
       landmarks (events r) =
         [EvModuleCreate "ca_client.ca" (Some m);
          EvAddIntConstant m "EPICS_EPOCH" (POSIX_TIME_AT_EPICS_EPOCH L) true;
          EvImportModule "enum" (Some em);
          EvGetAttrString em "Enum" (Some ec)] ++
         landmarks (flag_lookup em fallback (Some fc)) ++
         [EvCallFunction ec "Severity" l1
            (Some (built_pairs (Severity L))) (Some t1);
          EvAddObject m "Severity" t1 true;
          EvCallFunction ec "Status" l2
            (Some (built_pairs (Status L))) (Some t2);
          EvAddObject m "Status" t2 true;
          EvCallFunction ec "Type" l3
            (Some (built_pairs (Type_ L))) (Some t3);
          EvAddObject m "Type" t3 true;
          EvCallFunction fc "AccessRights" l4
            (Some (built_pairs AccessRights)) (Some t4);
          EvAddObject m "AccessRights" t4 true;
          EvCallFunction fc "Events" l5
            (Some (built_pairs (Events L))) (Some t5);
          EvAddObject m "Events" t5 true]).
Proof.
  intros r. subst r. rewrite PyInit_ca_eq. cbv zeta.
  pose proof (PyInit_body_run L s) as Hrun. cbv zeta in Hrun.
  destruct (PyInit_body L s) as [[res s'] tr].
  unfold result, final, events in *. cbn [fst snd] in *.
  destruct Hrun as
    [s1 _| m1 s1 _ _ | m1 a s1 _ _ | m1 a em s1 _ _ | m1 a em ec s1 _ _
    | m1 a em ec fc fb ins o tr1 s1 Hlen Hinst Hlm Hreg _ _ _
    | m1 a em ec fc fb ins tr1 s1 Hlen Hlm Hreg _ _ _ ].
  1-5: split; [|discriminate]; exists 0%nat, 0%nat; cbn; eexists; reflexivity.
  all: cbn [fst snd].
  - split; [|discriminate]. exists ec, fc.
    rewrite !steps_app, steps_decrefs, app_nil_r.
    rewrite (steps_registrations L _ _ _ _ _ _ Hlm). clear -Hlen Hinst.
    destruct ins as [|[l1 t1] [|[l2 t2] [|[l3 t3] [|[l4 t4] [|[l5 t5] ins]]]]];
      cbn in Hlen; try lia;
      destruct o; try discriminate; destruct fb; cbn;
      eexists; reflexivity.
  - destruct ins as [|[l1 t1] [|[l2 t2] [|[l3 t3] [|[l4 t4] [|[l5 t5] [|]]]]]];
      try discriminate.
    assert (Hsteps : steps (prologue L m1 em ec fc fb ++ tr1 ++
                        [EvDecref fc; EvDecref ec; EvDecref em]) =
                     all_steps L ec fc).
    { rewrite !steps_app, (steps_registrations L _ _ _ _ _ _ Hlm).
      by destruct fb. }
    split.
    + exists ec, fc. rewrite Hsteps. by exists [].
    + intros m [= <-].
      exists em, ec, fc, fb, l1, t1, l2, t2, l3, t3, l4, t4, l5, t5.
      split; [exact Hsteps|].
      rewrite !landmarks_app, Hlm. by destruct fb.
Qed.

Lemma initialization_order_witness :
  result (PyInit_ca EpicsBase.lib (boot never)) = Some 0%nat /\
  exists ec fc,
    steps (events (PyInit_ca EpicsBase.lib (boot never))) =
      all_steps EpicsBase.lib ec fc.
Proof.
  split; [reflexivity|].
  destruct (initialization_order EpicsBase.lib (boot never)) as [_ Hok].
  destruct (Hok 0%nat eq_refl)
    as (em & ec & fc & fb & l1 & t1 & l2 & t2 & l3 & t3 & l4 & t4 & l5 & t5
        & Hsteps & _).
  by exists ec, fc.
Defined.

Lemma lookups_decrefs (refs : list addr) :
  List.filter lookup_event (map EvDecref refs) = [].
Proof. by induction refs. Qed.

Lemma registrar_not_lookup (e : Event) :
  registrar_event e = true -> lookup_event e = false.
Proof. by destruct e. Qed.

Lemma decref_not_lookup (refs : list addr) :
  existsb lookup_event (map EvDecref refs) = false.
Proof. by induction refs. Qed.

Lemma in_lookups (e : Event) (tr : list Event) :
  In e tr -> lookup_event e = true -> In e (List.filter lookup_event tr).
Proof. intros Hin He. apply filter_In. auto. Qed.

Lemma lookups_in (e : Event) (tr : list Event) :
  In e (List.filter lookup_event tr) -> In e tr.
Proof. intros Hin. apply filter_In in Hin. tauto. Qed.

(** C5: the lookups of a run are, in this order and each at most once, the
    import of [enum], [Enum], [Flag] and, only after a failed [Flag],
    [IntEnum]; all of them come before the first call of a registration,
    with nothing but the creation of the module and [EPICS_EPOCH] before
    them.
    If [Flag] is missing, [IntEnum] is looked up, and when nothing else
    fails the initialisation returns the module, with [AccessRights] and
    [Events] constructed by what that lookup gave.  If the import of [enum]
    or the lookup of [Enum] fails, [PyInit_ca] returns [NULL] and looks up
    nothing more. *)
Theorem constructor_lookup (L : Library) (s : Interp) :
  let r := PyInit_ca L s in
  lookup_course (List.filter lookup_event (events r)) /\
  (exists pre post,
     events r = pre ++ post /\
     existsb registrar_event pre = false /\
     existsb lookup_event post = false /\
     steps pre `prefix_of`
       [StepCreate "ca_client.ca";
        StepConstant "EPICS_EPOCH" (POSIX_TIME_AT_EPICS_EPOCH L)]) /\
  (forall em, In (EvGetAttrString em "Flag" None) (events r) ->
     exists res,
       In (EvGetAttrString em "IntEnum" res) (events r) /\
       (existsb aborts (events r) = false ->
          exists m ec fc,
            result r = Some m /\ res = Some fc /\
            steps (events r) = all_steps L ec fc)) /\
  (In (EvImportModule "enum" None) (events r) ->
     result r = None /\
     List.filter lookup_event (events r) = [EvImportModule "enum" None]) /\
  (forall em, In (EvGetAttrString em "Enum" None) (events r) ->
     result r = None /\
     List.filter lookup_event (events r) =
       [EvImportModule "enum" (Some em); EvGetAttrString em "Enum" None]).
Proof.
  intros r. subst r. rewrite PyInit_ca_eq. cbv zeta.
  pose proof (PyInit_body_run L s) as Hrun. cbv zeta in Hrun.
  pose proof (body_run_verdict L s _ _ _ Hrun) as Hv.
  destruct (PyInit_body L s) as [[res s'] tr].
  unfold result, final, events in *. cbn [fst snd] in *.
  destruct Hrun as
    [s1 _| m1 s1 _ _ | m1 a s1 _ _ | m1 a em s1 _ _ | m1 a em ec s1 _ _
    | m1 a em ec fc fb ins o tr1 s1 Hlen Hinst Hlm Hreg _ _ _
    | m1 a em ec fc fb ins tr1 s1 Hlen Hlm Hreg _ _ _ ];
    cbn [fst snd].
  - (* no module *)
    split; [constructor|]. split.
    { eexists _, _. split; [reflexivity|]. do 2 (split; [done|]).
      cbn. eexists. reflexivity. }
    repeat split; try (intros; cbn in *; intuition discriminate).
  - (* no epoch constant *)
    split; [constructor|]. split.
    { eexists _, _. split; [reflexivity|]. do 2 (split; [done|]).
      cbn. eexists. reflexivity. }
    repeat split; try (intros; cbn in *; intuition discriminate).
  - (* no enum module *)
    split; [constructor|]. split.
    { eexists _, _. split; [reflexivity|]. do 2 (split; [done|]).
      cbn. eexists. reflexivity. }
    repeat split; try (intros; cbn in *; intuition discriminate).
  - (* no Enum *)
    split; [constructor|]. split.
    { eexists _, _. split; [reflexivity|]. do 2 (split; [done|]).
      cbn. eexists. reflexivity. }
    split; [intros; cbn in *; intuition discriminate|].
    split; [intros; cbn in *; intuition discriminate|].
    intros em' Hin. split; [done|]. cbn in Hin.
    repeat (destruct Hin as [Hin|Hin]; try discriminate); try done.
    by injection Hin as ->.
  - (* no flag class *)
    split; [constructor|]. split.
    { eexists _, _. split; [reflexivity|]. do 2 (split; [done|]).
      cbn. eexists. reflexivity. }
    split.
    { intros em' Hin. exists None. split; [|discriminate].
      cbn in Hin.
      repeat (destruct Hin as [Hin|Hin]; try discriminate); try done.
      injection Hin as ->. cbn. auto 10. }
    split; intros; cbn in *;
      repeat (match goal with
              | H : _ \/ _ |- _ => destruct H as [H|H]; try discriminate
              end); done.
  - (* a registration failed *)
    destruct Hv as [Hv _].
    assert (HF : List.filter lookup_event
                   ((prologue L m1 em ec fc fb ++ tr1) ++
                    map EvDecref (rev (held
                      (mkLocals (Some m1) (Some em) (Some ec) (Some fc))))) =
                 List.filter lookup_event (prologue L m1 em ec fc fb)).
    { rewrite !List.filter_app, (registrar_lookups _ Hreg), lookups_decrefs.
      by rewrite !app_nil_r. }
    assert (Hab : existsb aborts
                    ((prologue L m1 em ec fc fb ++ tr1) ++
                     map EvDecref (rev (held
                       (mkLocals (Some m1) (Some em) (Some ec) (Some fc))))) =
                  true).
    { by rewrite existsb_app, Hv. }
    rewrite HF. split; [destruct fb; constructor|]. split.
    { exists (prologue L m1 em ec fc fb), (tr1 ++ map EvDecref (rev (held
                (mkLocals (Some m1) (Some em) (Some ec) (Some fc))))).
      split; [by rewrite app_assoc|]. split; [by destruct fb|].
      split; [|destruct fb; by exists []].
      rewrite existsb_app, decref_not_lookup, orb_false_r.
      exact (existsb_none _ _ _ registrar_not_lookup Hreg). }
    split.
    { intros em' Hin. apply in_lookups in Hin; [|done]. rewrite HF in Hin.
      destruct fb; cbn in Hin;
        repeat (destruct Hin as [Hin|Hin]; try discriminate); try done.
      injection Hin as ->. exists (Some fc). split.
      - apply lookups_in. rewrite HF. cbn. auto 10.
      - rewrite Hab. discriminate. }
    split.
    { intros Hin. apply in_lookups in Hin; [|done]. rewrite HF in Hin.
      destruct fb; cbn in Hin;
        repeat (destruct Hin as [Hin|Hin]; try discriminate); done. }
    intros em' Hin. apply in_lookups in Hin; [|done]. rewrite HF in Hin.
    destruct fb; cbn in Hin;
      repeat (destruct Hin as [Hin|Hin]; try discriminate); done.
  - (* all five groups installed *)
    set (E := prologue L m1 em ec fc fb ++ tr1 ++
              [EvDecref fc; EvDecref ec; EvDecref em]).
    assert (HF : List.filter lookup_event E =
                 List.filter lookup_event (prologue L m1 em ec fc fb)).
    { subst E. rewrite !List.filter_app, (registrar_lookups _ Hreg).
      cbn. by rewrite !app_nil_r. }
    assert (Hsteps : steps E = all_steps L ec fc).
    { subst E.
      destruct ins as [|[l1 t1] [|[l2 t2] [|[l3 t3] [|[l4 t4] [|[l5 t5] [|]]]]]];
        try discriminate.
      rewrite !steps_app, (steps_registrations L _ _ _ _ _ _ Hlm).
      by destruct fb. }
    rewrite HF. split; [destruct fb; constructor|]. split.
    { exists (prologue L m1 em ec fc fb),
             (tr1 ++ [EvDecref fc; EvDecref ec; EvDecref em]).
      split; [done|]. split; [by destruct fb|].
      split; [|destruct fb; by exists []].
      rewrite existsb_app, orb_false_r.
      exact (existsb_none _ _ _ registrar_not_lookup Hreg). }
    split.
    { intros em' Hin. apply in_lookups in Hin; [|done]. rewrite HF in Hin.
      destruct fb; cbn in Hin;
        repeat (destruct Hin as [Hin|Hin]; try discriminate); try done.
      injection Hin as ->. exists (Some fc). split.
      - apply lookups_in. rewrite HF. cbn. auto 10.
      - intros _. by exists m1, ec, fc. }
    split.
    { intros Hin. apply in_lookups in Hin; [|done]. rewrite HF in Hin.
      destruct fb; cbn in Hin;
        repeat (destruct Hin as [Hin|Hin]; try discriminate); done. }
    intros em' Hin. apply in_lookups in Hin; [|done]. rewrite HF in Hin.
    destruct fb; cbn in Hin;
      repeat (destruct Hin as [Hin|Hin]; try discriminate); done.
Qed.

Lemma constructor_lookup_witness :
  In (EvGetAttrString 2 "Flag" None)
     (events (PyInit_ca EpicsBase.lib (boot (only 4)))) /\
  exists m ec fc,
    result (PyInit_ca EpicsBase.lib (boot (only 4))) = Some m /\
    steps (events (PyInit_ca EpicsBase.lib (boot (only 4)))) =
      all_steps EpicsBase.lib ec fc.
Proof.
  assert (Hin : In (EvGetAttrString 2 "Flag" None)
                  (events (PyInit_ca EpicsBase.lib (boot (only 4))))).
  { vm_compute. repeat (first [left; reflexivity | right]). }
  split; [exact Hin|].
  destruct (constructor_lookup EpicsBase.lib (boot (only 4)))
    as (_ & _ & Hflag & _).
  destruct (Hflag 2%nat Hin) as (res & _ & Hok).
  destruct Hok as (m & ec & fc & Hres & _ & Hsteps).
  { vm_compute. reflexivity. }
  exists m, ec, fc. split; [exact Hres | exact Hsteps].
Defined.

(** * Further properties of [add_enum] *)

Lemma install_failed_landmark (tr : list Event) :
  existsb install_failed (landmarks tr) = existsb install_failed tr.
Proof.
  unfold landmarks. induction tr as [|e tr IH]; [done|].
  cbn. destruct e; cbn; by rewrite IH.
Qed.

(** X1: unless [PyModule_AddObject] fails, [add_enum] returns with the
    references the extension owns exactly as they were when it was called:
    the list, the entries, the documentation string and the type were each
    released or handed over, on the error paths as on success. *)
Theorem add_enum_balanced (d : EnumDef) (m c : addr) (s : Interp) :
  existsb install_failed (events (add_enum d m c s)) = false ->
  owned (final (add_enum d m c s)) = owned s.
Proof.
  intros Hno.
  destruct (add_enum_spec d m c s) as (o & _ & Hlm & _ & _ & Hown & _).
  rewrite Hown. destruct o as [|l|l t|l t]; try done.
  rewrite <- install_failed_landmark, Hlm in Hno. discriminate.
Qed.

Lemma add_enum_balanced_witness :
  owned (final (add_enum AccessRights 0 2 (loaded (only 3)))) = [2; 1; 0]%nat /\
  owned (final (add_enum AccessRights 0 2 (loaded (only 5)))) = [2; 1; 0]%nat /\
  owned (final (add_enum AccessRights 0 2 (loaded never))) = [2; 1; 0]%nat.
Proof.
  split; [|split].
  - apply (add_enum_balanced AccessRights 0 2 (loaded (only 3))). reflexivity.
  - apply (add_enum_balanced AccessRights 0 2 (loaded (only 5))). reflexivity.
  - apply (add_enum_balanced AccessRights 0 2 (loaded never)). reflexivity.
Defined.

(** X2: when [add_enum] returns [false], every module has the attributes it
    had before the call: a failed registration leaves nothing of the group
    in the namespace. *)
Theorem add_enum_failure_leaves_namespace (d : EnumDef) (m c : addr)
    (s : Interp) :
  result (add_enum d m c s) = false ->
  modules_kept (heap s) (heap (final (add_enum d m c s))) /\
  forall attrs, namespace (heap s) m = Some attrs ->
    namespace (heap (final (add_enum d m c s))) m = Some attrs.
Proof.
  intros Hres.
  destruct (add_enum_spec d m c s) as (o & Hr & _ & _ & _ & _ & Ho).
  rewrite Hres in Hr.
  assert (Hk : modules_kept (heap s) (heap (final (add_enum d m c s)))).
  { destruct o; try discriminate; by destruct Ho. }
  split; [exact Hk|]. intros attrs. by apply namespace_kept.
Qed.

Lemma add_enum_failure_leaves_namespace_witness :
  namespace (heap (final (add_enum AccessRights 0 2 (loaded (only 8))))) 0 =
    Some [].
Proof.
  apply (add_enum_failure_leaves_namespace AccessRights 0 2 (loaded (only 8)));
    reflexivity.
Defined.

(** X3: when [add_enum] returns [false], the error indicator is set. *)
Theorem add_enum_failure_sets_error (d : EnumDef) (m c : addr) (s : Interp) :
  result (add_enum d m c s) = false ->
  err (final (add_enum d m c s)) <> None.
Proof.
  intros Hres.
  destruct (add_enum_spec d m c s) as (o & Hr & _ & _ & _ & _ & Ho).
  rewrite Hres in Hr. destruct o; try discriminate; by destruct Ho.
Qed.

Lemma add_enum_failure_sets_error_witness :
  err (final (add_enum AccessRights 0 2 (loaded (only 0)))) <> None.
Proof.
  apply (add_enum_failure_sets_error AccessRights 0 2 (loaded (only 0))).
  reflexivity.
Defined.



(** X6: called with no error pending, [add_enum] returns [true] with no
    error pending when none of its calls fails. *)
Theorem add_enum_clean (d : EnumDef) (m c : addr) (s : Interp) :
  err s = None ->
  existsb failed (events (add_enum d m c s)) = false ->
  result (add_enum d m c s) = true /\
  err (final (add_enum d m c s)) = None.
Proof.
  intros He Hno. split.
  - destruct (add_enum_spec d m c s) as (_ & _ & _ & _ & Hab & _).
    rewrite (existsb_weaken _ _ _ step_failed_failed Hno) in Hab.
    by destruct (result (add_enum d m c s)).
  - rewrite <- He. by apply add_enum_frame.
Qed.

Lemma add_enum_clean_witness :
  result (add_enum AccessRights 0 2 (loaded never)) = true /\
  err (final (add_enum AccessRights 0 2 (loaded never))) = None.
Proof.
  apply (add_enum_clean AccessRights 0 2 (loaded never)); reflexivity.
Defined.

(** X7: with a negative [count()], [add_enum] fails at [PyList_New] and
    makes no other call: it returns [false] with the error indicator set and
    with the heap, the owned references and the schedule of faults
    untouched. *)
Theorem add_enum_negative_count (d : EnumDef) (m c : addr) (s : Interp) :
  count d < 0 ->
  let r := add_enum d m c s in
  result r = false /\
  events r = [EvListNew (count d) None] /\
  err (final r) = Some (ApiError "PyList_New") /\
  heap (final r) = heap s /\ owned (final r) = owned s /\
  clock (final r) = clock s.
Proof.
  intros Hc r. subst r. unfold add_enum, bind, PyList_New.
  destruct (Z.ltb_spec (count d) 0) as [_|?]; [|lia].
  by repeat split.
Qed.

Lemma add_enum_negative_count_witness :
  events (add_enum
            (Type_ (mkLibrary (mk_int 0 eq_refl) (fun _ => "")
                      (mk_int 0 eq_refl) (fun _ => "")
                      (mk_short 1 eq_refl) (fun _ => "")
                      (mk_int 1 eq_refl) (mk_int 2 eq_refl)
                      (mk_int 4 eq_refl) (mk_int 8 eq_refl) 0))
            0 2 (loaded never)) =
    [EvListNew (-1) None].
Proof.
  refine (proj1 (proj2 (add_enum_negative_count _ 0 2 (loaded never) _))).
  reflexivity.
Defined.

(** X8: for every provider, whatever its values, each call of the
    constructor gets the callable and the name given to [add_enum] and the
    pairs [(text(i), v)] for [i = 0 .. count()-1] where [v] is [value(i)]
    reduced to a 32-bit [int] by the format unit [i]; these are the pairs
    [(text(i), value(i))] when every value fits an [int], and there are none
    when [count()] is 0. *)
Theorem add_enum_narrows_values (d : EnumDef) (m c : addr) (s : Interp) :
  (forall cl nm l ps res,
     In (EvCallFunction cl nm l ps res) (events (add_enum d m c s)) ->
     cl = c /\ nm = name d /\
     ps = Some (map (fun i => (text d i, to_int (value d i)))
                  (indices (count d)))) /\
  ((forall i, 0 <= i < count d -> is_int (value d i)) ->
   map (fun i => (text d i, to_int (value d i))) (indices (count d)) =
     pairs_of d) /\
  (count d = 0 ->
   map (fun i => (text d i, to_int (value d i))) (indices (count d)) = []).
Proof.
  split; [|split].
  - intros cl nm l ps res Hin.
    destruct (add_enum_spec d m c s) as (o & _ & Hlm & _).
    apply in_landmarks in Hin; [|done]. rewrite Hlm in Hin.
    destruct o; cbn in Hin; unfold built_pairs in Hin; intuition congruence.
  - apply built_pairs_exact.
  - by intros ->.
Qed.

Lemma add_enum_narrows_values_witness :
  In (EvCallFunction 2%nat "Wide" 3%nat
        (Some [("SMALL", 1); ("LARGE", 7)]) (Some 6%nat))
     (events (add_enum Wide 0 2 (loaded never))) /\
  pairs_of Wide = [("SMALL", 1); ("LARGE", 2 ^ 32 + 7)] /\
  pairs_of AccessRights =
    map (fun i => (text AccessRights i, to_int (value AccessRights i)))
      (indices (count AccessRights)).
Proof.
  split; [vm_compute; auto 10|]. split; [reflexivity|].
  symmetry.
  apply (proj1 (proj2 (add_enum_narrows_values AccessRights 0 2
                         (loaded never)))).
  intros i Hi. exact (provider_values_int EpicsBase.lib GAccessRights i Hi).
Defined.

(** * Further properties of [PyInit_ca] *)

Lemma namespace_not_type (h : list PyObject) (m t c : addr) (n : string)
    (ms : list (string * Z)) (doc0 : option string)
    (attrs : list (string * addr)) :
  namespace h m = Some attrs -> h !! t = Some (PyType c n ms doc0) -> t <> m.
Proof. unfold namespace. intros Hm Ht ->. by rewrite Ht in Hm. Qed.

Lemma register_list_frame (m : addr) (rs : list (EnumDef * addr)) :
  forall (s : Interp) (attrs : list (string * addr)),
    namespace (heap s) m = Some attrs ->
    let r := register_list rs m s in
    (forall a o, heap s !! a = Some o -> a <> m ->
       heap (final r) !! a = Some o) /\
    (result r = false -> err (final r) <> None) /\
    (existsb failed (events r) = false -> err (final r) = err s) /\
    (forall c nm l ps t,
       In (EvCallFunction c nm l ps (Some t)) (events r) ->
       exists d doc',
         In (d, c) rs /\ nm = name d /\ ps = Some (built_pairs d) /\
         heap (final r) !! t = Some (PyType c nm (built_pairs d) doc')).
Proof.
  induction rs as [|[d c] rs IH]; intros s attrs Hm r.
  { subst r. cbn. repeat split; try done. }
  assert (Hr : register_list ((d, c) :: rs) m s = r) by reflexivity.
  clearbody r. cbn [register_list] in Hr. unfold bind in Hr.
  destruct (add_enum_spec d m c s) as (o1 & Hres & Hlm & _ & _ & _ & Ho).
  destruct (add_enum_frame d m c s) as (Hfr & Hclean & _ & Hty).
  destruct (add_enum d m c s) as [[ok s1] tr1].
  unfold result, final, events in *. cbn [fst snd] in *.
  assert (Hcall : forall c' nm l ps t,
            In (EvCallFunction c' nm l ps (Some t)) tr1 ->
            c' = c /\ nm = name d /\ ps = Some (built_pairs d)).
  { intros c' nm l ps t Hin. apply in_landmarks in Hin; [|done].
    rewrite Hlm in Hin. destruct o1; cbn in Hin; intuition congruence. }
  destruct ok; cbn [negb] in Hr.
  2: { finish_run Hr. cbn [fst snd]. rewrite app_nil_r.
       split; [exact Hfr|]. split.
       { intros _. destruct o1; try discriminate; by destruct Ho. }
       split; [exact Hclean|].
       intros c' nm l ps t Hin.
       destruct (Hcall _ _ _ _ _ Hin) as (-> & -> & ->).
       destruct (Hty _ _ _ _ _ Hin) as (doc' & Ht).
       exists d, doc'. repeat split; auto. by left. }
  destruct o1 as [| | |l1 t1]; try discriminate.
  destruct Ho as (attrs0 & doc1 & Hns & Hsame & _ & _).
  specialize (IH s1 _ Hns). cbv zeta in IH.
  destruct IH as (Hfr' & Herr' & Hclean' & Hty').
  destruct (register_list rs m s1) as [[ok s2] tr2].
  unfold result, final, events in *. cbn [fst snd] in *.
  finish_run Hr. cbn [fst snd].
  split; [by auto|]. split; [exact Herr'|]. split.
  { rewrite existsb_app. intros [H1 H2]%orb_false_iff.
    rewrite Hclean' by done. by apply Hclean. }
  intros c' nm l ps t Hin. apply in_app_or in Hin as [Hin|Hin].
  - destruct (Hcall _ _ _ _ _ Hin) as (-> & -> & ->).
    destruct (Hty _ _ _ _ _ Hin) as (doc' & Ht).
    exists d, doc'. repeat split; auto; [by left|].
    apply Hfr'; [done|]. by eapply namespace_not_type.
  - destruct (Hty' _ _ _ _ _ Hin) as (d' & doc' & Hd & -> & -> & Ht).
    exists d', doc'. repeat split; auto. by right.
Qed.

Lemma register_all_frame (L : Library) (m em ec fc : addr) (s : Interp)
    (attrs : list (string * addr)) :
  namespace (heap s) m = Some attrs ->
  let r := register_all L m em ec fc s in
  (forall a o, heap s !! a = Some o -> a <> m ->
     heap (final r) !! a = Some o) /\
  (forall v, result r = inl v -> err (final r) <> None) /\
  (existsb failed (events r) = false -> err (final r) = err s) /\
  forallb registrar_event (events r) = true /\
  (forall c nm l ps t,
     In (EvCallFunction c nm l ps (Some t)) (events r) ->
     exists d doc',
       In (d, c) (registrations L ec fc) /\ nm = name d /\
       ps = Some (built_pairs d) /\
       heap (final r) !! t = Some (PyType c nm (built_pairs d) doc')).
Proof.
  intros Hm r. subst r. rewrite register_all_eq. cbv zeta.
  destruct (register_list_frame m (registrations L ec fc) s _ Hm)
    as (Hfr & Herr & Hclean & Hty).
  destruct (register_list_spec m (registrations L ec fc) s _ Hm)
    as (_ & _ & _ & _ & _ & _ & Hreg & _).
  destruct (register_list (registrations L ec fc) m s) as [[ok s'] tr].
  unfold result, final, events in *. cbn [fst snd] in *.
  destruct ok; cbn [fst snd]; state_simpl.
  - split; [exact Hfr|]. split; [discriminate|]. split.
    { rewrite existsb_app. intros [H1 _]%orb_false_iff. by apply Hclean. }
    split; [by rewrite forallb_app, Hreg|].
    intros c nm l ps t Hin.
    apply in_app_or in Hin as [Hin|Hin]; [by eapply Hty|].
    cbn in Hin. intuition discriminate.
  - split; [exact Hfr|]. split; [by auto|]. by split.
Qed.

Lemma PyInit_body_way (L : Library) (s : Interp) :
  let b := PyInit_body L s in
  body_way L s (result b) (final b) (events b).
Proof.
  intros b. assert (Hb : PyInit_body L s = b) by reflexivity. clearbody b.
  unfold PyInit_body, bind, PyModule_Create, new_reference in Hb.
  destruct (fails s) eqn:H0.
  { finish_run Hb. cbn. apply way_early; try done.
    - intros c nm l ps res Hin. cbn in Hin. intuition discriminate.
    - intros m n v0 Hin. cbn in Hin. intuition discriminate. }
  unfold PyModule_AddIntConstant, fails in Hb. state_simpl.
  rewrite lookup_store_new in Hb. cbn [def_name def_doc module_def] in Hb.
  set (m := length (heap s)) in *.
  set (h1 := heap s ++ [PyModule "ca_client.ca" ca__doc__ []]) in *.
  assert (Hfr1 : forall x o, heap s !! x = Some o ->
                   h1 !! x = Some o /\ x <> m).
  { intros x o Hx. split; [by apply lookup_app_l_Some|].
    apply lookup_lt_Some in Hx. subst m. lia. }
  destruct (faults s (S (clock s))) eqn:H1.
  { finish_run Hb. cbn. apply way_early; try done.
    - intros x o Hx. by apply Hfr1.
    - intros c nm l ps res Hin. cbn in Hin. intuition discriminate.
    - intros m0 n v0 Hin. cbn in Hin. intuition discriminate. }
  cbn [negb Z.eqb dict_set] in Hb.
  unfold PyImport_ImportModule, new_reference, fails in Hb. state_simpl.
  set (a := length h1) in *.
  set (h2 := <[m := PyModule "ca_client.ca" ca__doc__ [("EPICS_EPOCH", a)]]>
               (h1 ++ [PyLong (POSIX_TIME_AT_EPICS_EPOCH L)])) in *.
  assert (Ham : a <> m).
  { subst a h1 m. rewrite length_app. cbn. lia. }
  assert (Hns2 : namespace h2 m = Some [("EPICS_EPOCH", a)]).
  { subst h2. apply namespace_update. subst h1 m. rewrite !length_app.
    cbn. lia. }
  assert (Hlong2 : h2 !! a = Some (PyLong (POSIX_TIME_AT_EPICS_EPOCH L))).
  { subst h2. rewrite list_lookup_insert_ne by done.
    apply lookup_store_new. }
  assert (Hfr2 : forall x o, heap s !! x = Some o ->
                   h2 !! x = Some o /\ x <> m).
  { intros x o Hx. destruct (Hfr1 x o Hx) as [Hx1 Hne]. split; [|done].
    subst h2. rewrite list_lookup_insert_ne by done.
    by apply lookup_app_l_Some. }
  assert (Hepoch : forall (h : list PyObject) m0 n v0 (tail : list Event),
            namespace h m = Some [("EPICS_EPOCH", a)] ->
            h !! a = Some (PyLong (POSIX_TIME_AT_EPICS_EPOCH L)) ->
            In (EvAddIntConstant m0 n v0 true)
               (EvModuleCreate "ca_client.ca" (Some m)
                :: EvAddIntConstant m "EPICS_EPOCH"
                     (POSIX_TIME_AT_EPICS_EPOCH L) true :: tail) ->
            (forall e, In e tail -> landmark e = true ->
               lookup_event e = true) ->
            exists a0, namespace h m0 = Some [(n, a0)] /\
                       h !! a0 = Some (PyLong v0)).
  { intros h m0 n v0 tail Hns Hlong [Hin|[Hin|Hin]] Htail;
      [discriminate| |by apply Htail in Hin].
    injection Hin as <- <- <-. eauto. }
  destruct (faults s (S (S (clock s)))) eqn:H2.
  { finish_run Hb. cbn. apply way_early; try done.
    - intros x o Hx. by apply Hfr2.
    - intros c nm l ps res Hin. cbn in Hin. intuition discriminate.
    - intros m0 n v0 Hin. eapply Hepoch; eauto.
      intros e [<-|[]]; done. }
  unfold PyObject_GetAttrString, new_reference, fails in Hb. state_simpl.
  destruct (faults s (S (S (S (clock s))))) eqn:H3.
  { finish_run Hb. cbn. apply way_early; try done.
    - intros x o Hx. apply lookup_app_l_Some. by apply Hfr2.
    - intros c nm l ps res Hin. cbn in Hin. intuition discriminate.
    - intros m0 n v0 Hin. eapply Hepoch; eauto.
      + by apply namespace_store.
      + by apply lookup_app_l_Some.
      + intros e [<-|[<-|[]]]; done. }
  state_simpl.
  destruct (faults s (S (S (S (S (clock s)))))) eqn:H4.
  - unfold PyErr_Clear in Hb. state_simpl.
    destruct (faults s (S (S (S (S (S (clock s))))))) eqn:H5.
    { finish_run Hb. cbn. apply way_early; try done.
      - intros x o Hx. do 2 apply lookup_app_l_Some. by apply Hfr2.
      - intros c nm l ps res Hin. cbn in Hin. intuition discriminate.
      - intros m0 n v0 Hin. eapply Hepoch; eauto.
        + by do 2 apply namespace_store.
        + by do 2 apply lookup_app_l_Some.
        + intros e [<-|[<-|[<-|[<-|[<-|[]]]]]]; done. }
    match type of Hb with
    | context [register_all L ?x ?em ?ec ?fc ?st] =>
        pose proof (way_register L s x a em ec fc true st) as Hway;
        destruct (register_all L x em ec fc st) as [[res s'] tr]
    end.
    finish_run Hb. unfold result, final, events in *. cbn [fst snd] in *.
    apply Hway; cbn [heap err]; try done.
    + by do 3 apply namespace_store.
    + by do 3 apply lookup_app_l_Some.
    + intros x o Hx. destruct (Hfr2 x o Hx). split; [|done].
      by do 3 apply lookup_app_l_Some.
  - match type of Hb with
    | context [register_all L ?x ?em ?ec ?fc ?st] =>
        pose proof (way_register L s x a em ec fc false st) as Hway;
        destruct (register_all L x em ec fc st) as [[res s'] tr]
    end.
    finish_run Hb. unfold result, final, events in *. cbn [fst snd] in *.
    apply Hway; cbn [heap err]; try done.
    + by do 3 apply namespace_store.
    + by do 3 apply lookup_app_l_Some.
    + intros x o Hx. destruct (Hfr2 x o Hx). split; [|done].
      by do 3 apply lookup_app_l_Some.
Qed.

Lemma error_keeps (v : Locals) (s : Interp) :
  heap (final (error v s)) = heap s /\ err (final (error v s)) = err s.
Proof. destruct v as [[m|] [em|] [ec|] [fc|]]; by split. Qed.

Lemma registrar_other_failed (tr : list Event) :
  forallb registrar_event tr = true ->
  existsb other_failed tr = existsb failed tr /\
  existsb flag_missing tr = false.
Proof.
  induction tr as [|e tr IH]; [done|]. cbn.
  intros [He Htr]%andb_true_iff. destruct (IH Htr) as [-> ->].
  assert (Hfm : flag_missing e = false) by (by destruct e).
  unfold other_failed. rewrite Hfm. cbn [negb orb].
  by rewrite andb_true_r.
Qed.

Lemma aborts_other_failed (e : Event) :
  aborts e = true -> other_failed e = true.
Proof.
  destruct e as [? []|? ? ? []|? []|? a []| | ? []| ? ? []| | ? ? ? ? []|
                 | | | ? ? ? []|]; done.
Qed.

Lemma other_failed_failed (e : Event) :
  other_failed e = true -> failed e = true.
Proof. unfold other_failed. by intros [? _]%andb_true_iff. Qed.

Lemma PyInit_ca_final (L : Library) (s : Interp) :
  let b := PyInit_body L s in
  let r := PyInit_ca L s in
  heap (final r) = heap (final b) /\
  err (final r) = err (final b) /\
  (forall p, existsb p (events r) = false -> existsb p (events b) = false) /\
  (forall m, result r = Some m <-> result b = inr m).
Proof.
  cbv zeta. rewrite PyInit_ca_eq. cbv zeta.
  destruct (PyInit_body L s) as [[[v|m] s'] tr];
    unfold result, final, events; cbn [fst snd].
  - destruct (error_keeps v s') as [Hh He]. unfold final in Hh, He.
    repeat split; try done.
    intros p. rewrite existsb_app. by intros [? _]%orb_false_iff.
  - repeat split; try done; congruence.
Qed.

(** X9: [PyInit_ca] returns [NULL] exactly when a failure that ends the
    initialisation occurred: no module, no epoch constant, no [enum] module,
    no [Enum], no flag class at the second try, or a failed step 1, 2 or 4 of
    a registration.  A missing [Flag] and failures of the documentation step
    never make it return [NULL]. *)
Theorem PyInit_ca_null_iff (L : Library) (s : Interp) :
  result (PyInit_ca L s) = None <->
  existsb aborts (events (PyInit_ca L s)) = true.
Proof.
  rewrite PyInit_ca_verdict.
  destruct (result (PyInit_ca L s)); split; done.
Qed.

(** X10: when [PyInit_ca] returns [NULL], the error indicator is set. *)
Theorem PyInit_ca_null_sets_error (L : Library) (s : Interp) :
  result (PyInit_ca L s) = None ->
  err (final (PyInit_ca L s)) <> None.
Proof.
  intros Hres.
  destruct (PyInit_ca_final L s) as (_ & -> & _ & Hiff).
  pose proof (PyInit_body_way L s) as Hway. cbv zeta in Hway.
  destruct Hway as [v s' tr _ Herr _ _ _ | m a em ec fc fb s5 Hns _ _ _ _];
    [exact Herr|].
  destruct (register_all_frame L m em ec fc s5 _ Hns) as (_ & Herr & _).
  destruct (result (register_all L m em ec fc s5)) as [v|m'] eqn:Hr.
  - by apply (Herr v).
  - rewrite (proj2 (Hiff m') eq_refl) in Hres. discriminate.
Qed.

Lemma PyInit_ca_null_sets_error_witness :
  err (final (PyInit_ca EpicsBase.lib (boot (only 5)))) <> None.
Proof.
  apply (PyInit_ca_null_sets_error EpicsBase.lib (boot (only 5))).
  vm_compute. reflexivity.
Defined.

(** X12: when [PyInit_ca] returns the module, the one reference the
    extension owns beyond those it had is the reference to the module it
    returns: the [enum] module, the two classes, every list, tuple, type and
    documentation string were released or handed over. *)
Theorem PyInit_ca_success_owns_module (L : Library) (s : Interp) (m : addr) :
  result (PyInit_ca L s) = Some m ->
  owned (final (PyInit_ca L s)) = m :: owned s.
Proof.
  rewrite PyInit_ca_eq. cbv zeta.
  pose proof (PyInit_body_run L s) as Hrun. cbv zeta in Hrun.
  destruct (PyInit_body L s) as [[res s'] tr].
  unfold result, final, events in *. cbn [fst snd] in *.
  destruct Hrun; cbn [fst snd]; try discriminate.
  by intros [= <-].
Qed.

Lemma PyInit_ca_success_owns_module_witness :
  owned (final (PyInit_ca EpicsBase.lib (boot never))) = [0%nat].
Proof.
  apply (PyInit_ca_success_owns_module EpicsBase.lib (boot never)).
  reflexivity.
Defined.

Lemma register_all_installs (L : Library) (m em ec fc : addr) (s : Interp)
    (a m' : addr) :
  namespace (heap s) m = Some [("EPICS_EPOCH", a)] ->
  let r := register_all L m em ec fc s in
  result r = inr m' ->
  m' = m /\
  exists t1 t2 t3 t4 t5 l1 l2 l3 l4 l5,
    namespace (heap (final r)) m =
      Some [("EPICS_EPOCH", a); ("Severity", t1); ("Status", t2);
            ("Type", t3); ("AccessRights", t4); ("Events", t5)] /\
    In (EvCallFunction ec "Severity" l1 (Some (pairs_of (Severity L)))
          (Some t1)) (events r) /\
    In (EvCallFunction ec "Status" l2 (Some (pairs_of (Status L)))
          (Some t2)) (events r) /\
    In (EvCallFunction ec "Type" l3 (Some (pairs_of (Type_ L)))
          (Some t3)) (events r) /\
    In (EvCallFunction fc "AccessRights" l4 (Some (pairs_of AccessRights))
          (Some t4)) (events r) /\
    In (EvCallFunction fc "Events" l5 (Some (pairs_of (Events L)))
          (Some t5)) (events r).
Proof.
  intros Hns r. subst r. rewrite register_all_eq. cbv zeta.
  destruct (register_list_spec m (registrations L ec fc) s _ Hns)
    as (ins & o & Hlen & _ & Hres & Hlm & _ & _ & Hns' & _).
  destruct (register_list (registrations L ec fc) m s) as [[ok s'] tr].
  unfold result, final, events in *. cbn [fst snd] in *.
  destruct ok; cbn [fst snd]; [|discriminate]. intros [= <-].
  split; [done|]. state_simpl.
  destruct ins as [|[l1 t1] [|[l2 t2] [|[l3 t3] [|[l4 t4] [|[l5 t5] [|]]]]]];
    try discriminate.
  assert (Hcell : forall e, In e (landmarks tr) -> In e tr).
  { intros e Hin. by apply filter_In in Hin as [Hin _]. }
  assert (Hbp : forall g, built_pairs (provider L g) = pairs_of (provider L g)).
  { intros g. apply built_pairs_exact. intros i. apply provider_values_int. }
  rewrite Hlm in Hcell. cbn in Hcell.
  pose proof (Hbp GSeverity) as E1. pose proof (Hbp GStatus) as E2.
  pose proof (Hbp GType) as E3. pose proof (Hbp GAccessRights) as E4.
  pose proof (Hbp GEvents) as E5. cbn [provider] in E1, E2, E3, E4, E5.
  rewrite E1, E2, E3, E4, E5 in Hcell.
  exists t1, t2, t3, t4, t5, l1, l2, l3, l4, l5.
  split; [exact Hns'|].
  repeat split; apply in_or_app; left; apply Hcell; auto 20.
Qed.

(** X13: when [PyInit_ca] returns the module, the module has exactly the
    attributes [EPICS_EPOCH], [Severity], [Status], [Type], [AccessRights] and
    [Events], in this order; [EPICS_EPOCH] is an integer of value
    [POSIX_TIME_AT_EPICS_EPOCH]; each group is bound to the object that the
    constructor call for it returned, a call with the name of the group and
    the pairs [(text(i), value(i))] of its provider, made for the first three
    on the class that the lookup of [Enum] gave and for the last two on the
    class that the lookup of [Flag], or of [IntEnum], gave. *)
Theorem PyInit_ca_success_namespace (L : Library) (s : Interp) (m : addr) :
  let r := PyInit_ca L s in
  result r = Some m ->
  exists e t1 t2 t3 t4 t5 em ec fc l1 l2 l3 l4 l5,
    namespace (heap (final r)) m =
      Some [("EPICS_EPOCH", e); ("Severity", t1); ("Status", t2);
            ("Type", t3); ("AccessRights", t4); ("Events", t5)] /\
    heap (final r) !! e = Some (PyLong (POSIX_TIME_AT_EPICS_EPOCH L)) /\
    In (EvGetAttrString em "Enum" (Some ec)) (events r) /\
    (In (EvGetAttrString em "Flag" (Some fc)) (events r) \/
     In (EvGetAttrString em "IntEnum" (Some fc)) (events r)) /\
    In (EvCallFunction ec "Severity" l1 (Some (pairs_of (Severity L)))
          (Some t1)) (events r) /\
    In (EvCallFunction ec "Status" l2 (Some (pairs_of (Status L)))
          (Some t2)) (events r) /\
    In (EvCallFunction ec "Type" l3 (Some (pairs_of (Type_ L)))
          (Some t3)) (events r) /\
    In (EvCallFunction fc "AccessRights" l4 (Some (pairs_of AccessRights))
          (Some t4)) (events r) /\
    In (EvCallFunction fc "Events" l5 (Some (pairs_of (Events L)))
          (Some t5)) (events r).
Proof.
  intros r Hres. subst r.
  destruct (PyInit_ca_final L s) as (Hh & _ & _ & Hiff).
  apply Hiff in Hres. rewrite Hh.
  assert (Hev : events (PyInit_ca L s) = events (PyInit_body L s)).
  { rewrite PyInit_ca_eq. cbv zeta. by rewrite Hres. }
  rewrite Hev. clear Hh Hiff Hev.
  pose proof (PyInit_body_way L s) as Hway. cbv zeta in Hway.
  destruct Hway as [v s' tr _ _ _ _ _ | m0 a em ec fc fb s5 Hns Hlong Ham _ _];
    [discriminate|].
  destruct (register_all_installs L m0 em ec fc s5 a m Hns Hres)
    as (-> & t1 & t2 & t3 & t4 & t5 & l1 & l2 & l3 & l4 & l5 & Hns' & Hts).
  destruct (register_all_frame L m0 em ec fc s5 _ Hns) as (Hfr & _).
  exists a, t1, t2, t3, t4, t5, em, ec, fc, l1, l2, l3, l4, l5.
  split; [exact Hns'|]. split; [by apply Hfr|].
  split; [destruct fb; cbn; auto 10|].
  split; [destruct fb; cbn; auto 10|].
  destruct Hts as (H1 & H2 & H3 & H4 & H5).
  repeat split; apply in_or_app; right; assumption.
Qed.

Lemma PyInit_ca_success_namespace_witness :
  exists e t1 t2 t3 t4 t5 fc l4,
    namespace (heap (final (PyInit_ca EpicsBase.lib (boot never)))) 0 =
      Some [("EPICS_EPOCH", e); ("Severity", t1); ("Status", t2);
            ("Type", t3); ("AccessRights", t4); ("Events", t5)] /\
    heap (final (PyInit_ca EpicsBase.lib (boot never))) !! e =
      Some (PyLong 631152000) /\
    In (EvCallFunction fc "AccessRights" l4 (Some (pairs_of AccessRights))
          (Some t4))
       (events (PyInit_ca EpicsBase.lib (boot never))).
Proof.
  assert (Hres : result (PyInit_ca EpicsBase.lib (boot never)) = Some 0%nat)
    by (vm_compute; reflexivity).
  destruct (PyInit_ca_success_namespace EpicsBase.lib (boot never) 0%nat Hres)
    as (e & t1 & t2 & t3 & t4 & t5 & em & ec & fc & l1 & l2 & l3 & l4 & l5
        & Hns & He & _ & _ & _ & _ & _ & H4 & _).
  exists e, t1, t2, t3, t4, t5, fc, l4.
  split; [exact Hns|]. split; [exact He | exact H4].
Defined.

Lemma PyInit_body_quiet (L : Library) (s : Interp) (fbw : bool) :
  let b := PyInit_body L s in
  existsb other_failed (events b) = false ->
  existsb flag_missing (events b) = fbw ->
  err (final b) = (if fbw then None else err s).
Proof.
  intros b Hno Hfm. subst b.
  pose proof (PyInit_body_way L s) as Hway. cbv zeta in Hway.
  destruct Hway as [v s' tr _ _ Hof _ _ | m a em ec fc fb s5 Hns _ _ _ Herr].
  { by rewrite Hof in Hno. }
  destruct (register_all_frame L m em ec fc s5 _ Hns)
    as (_ & _ & Hclean & Hreg & _).
  destruct (registrar_other_failed _ Hreg) as [Hof Hnf].
  rewrite existsb_app in Hno, Hfm.
  apply orb_false_iff in Hno as [_ Hno]. rewrite Hof in Hno.
  rewrite Hnf, orb_false_r in Hfm. rewrite (Hclean Hno), Herr.
  destruct fb; cbn in Hfm; by subst fbw.
Qed.

Lemma PyInit_ca_returns (L : Library) (s : Interp) :
  existsb other_failed (events (PyInit_ca L s)) = false ->
  (exists m, result (PyInit_ca L s) = Some m) /\
  events (PyInit_ca L s) = events (PyInit_body L s).
Proof.
  intros Hno.
  pose proof (existsb_weaken _ _ _ aborts_other_failed Hno) as Hab.
  rewrite PyInit_ca_verdict in Hab.
  destruct (result (PyInit_ca L s)) as [m|] eqn:Hres; [|discriminate].
  split; [by exists m|].
  destruct (PyInit_ca_final L s) as (_ & _ & _ & Hiff).
  apply Hiff in Hres. rewrite PyInit_ca_eq. cbv zeta. by rewrite Hres.
Qed.

(** X14: if [Flag] is missing and nothing else fails, [PyInit_ca] returns
    the module with the error indicator clear: the error of the failed lookup
    is gone, and so is any error that was pending when [PyInit_ca] was
    called. *)
Theorem flag_fallback_clears_error (L : Library) (s : Interp) :
  let r := PyInit_ca L s in
  existsb flag_missing (events r) = true ->
  existsb other_failed (events r) = false ->
  (exists m, result r = Some m) /\ err (final r) = None.
Proof.
  intros r Hfm Hno. subst r.
  destruct (PyInit_ca_returns L s Hno) as [Hres Hev]. split; [exact Hres|].
  destruct (PyInit_ca_final L s) as (_ & -> & _).
  rewrite Hev in Hfm, Hno.
  exact (PyInit_body_quiet L s true Hno Hfm).
Qed.

Lemma flag_fallback_clears_error_witness :
  (exists m, result (PyInit_ca EpicsBase.lib
                       (mkInterp [] [] (Some (ApiError "earlier")) 0
                          (only 4))) = Some m) /\
  err (final (PyInit_ca EpicsBase.lib
                (mkInterp [] [] (Some (ApiError "earlier")) 0 (only 4)))) =
    None.
Proof.
  apply (flag_fallback_clears_error EpicsBase.lib
           (mkInterp [] [] (Some (ApiError "earlier")) 0 (only 4)));
    vm_compute; reflexivity.
Defined.

(** X15: called with no error pending, [PyInit_ca] returns the module with
    no error pending when none of its calls fails. *)
Theorem PyInit_ca_clean (L : Library) (s : Interp) :
  let r := PyInit_ca L s in
  err s = None ->
  existsb failed (events r) = false ->
  (exists m, result r = Some m) /\ err (final r) = None.
Proof.
  intros r He Hno. subst r.
  pose proof (existsb_weaken _ _ _ other_failed_failed Hno) as Hof.
  destruct (PyInit_ca_returns L s Hof) as [Hres Hev]. split; [exact Hres|].
  destruct (PyInit_ca_final L s) as (_ & -> & _).
  rewrite Hev in Hno, Hof. rewrite <- He.
  apply (PyInit_body_quiet L s false Hof).
  apply (existsb_weaken flag_missing failed); [|exact Hno].
  by intros [| | |? ? []| | | | | | | | | |].
Qed.

Lemma PyInit_ca_clean_witness :
  (exists m, result (PyInit_ca EpicsBase.lib (boot never)) = Some m) /\
  err (final (PyInit_ca EpicsBase.lib (boot never))) = None.
Proof.
  apply (PyInit_ca_clean EpicsBase.lib (boot never)); [reflexivity|].
  vm_compute. reflexivity.
Defined.

Lemma land_lor_l (a b : Z) : Z.land (Z.lor a b) a = a.
Proof.
  apply Z.bits_inj'. intros n _. rewrite Z.land_spec, Z.lor_spec.
  by destruct (Z.testbit a n), (Z.testbit b n).
Qed.

Lemma land_lor_r (a b : Z) : Z.land (Z.lor a b) b = b.
Proof. rewrite Z.lor_comm. apply land_lor_l. Qed.

Lemma land_lor_more (x a b : Z) :
  Z.land x a = a -> Z.land (Z.lor x b) a = a.
Proof.
  intros Hx. apply Z.bits_inj'. intros n _.
  rewrite Z.land_spec, Z.lor_spec.
  assert (Hn : Z.testbit (Z.land x a) n = Z.testbit a n) by by rewrite Hx.
  rewrite Z.land_spec in Hn.
  by destruct (Z.testbit x n), (Z.testbit a n), (Z.testbit b n).
Qed.

(** X16: whatever the masks of the library are, every member of [Events] is
    contained in [ALL], and every member of [AccessRights] in [RW_ACCESS]:
    masking the value of the last member of the table with the value of any
    member gives that member back. *)
Theorem flags_contained_in_last (L : Library) (i : Z) :
  (0 <= i < count (Events L) ->
   Z.land (value (Events L) 5) (value (Events L) i) = value (Events L) i) /\
  (0 <= i < count AccessRights ->
   Z.land (value AccessRights 3) (value AccessRights i) =
     value AccessRights i) /\
  text (Events L) 5 = "ALL" /\ text AccessRights 3 = "RW_ACCESS".
Proof.
  split; [|split; [|by split]].
  - intros Hi. cbn in Hi.
    assert (i = 0 \/ i = 1 \/ i = 2 \/ i = 3 \/ i = 4 \/ i = 5) as Hc by lia.
    destruct Hc as [-> | [-> | [-> | [-> | [-> | ->]]]]]; cbn.
    + apply Z.land_0_r.
    + apply land_lor_more, land_lor_more, land_lor_l.
    + apply land_lor_more, land_lor_more, land_lor_r.
    + apply land_lor_more, land_lor_r.
    + apply land_lor_r.
    + apply Z.land_diag.
  - intros Hi. cbn in Hi.
    assert (i = 0 \/ i = 1 \/ i = 2 \/ i = 3) as Hc by lia.
    destruct Hc as [-> | [-> | [-> | ->]]]; reflexivity.
Qed.

Lemma flags_contained_in_last_witness :
  Z.land (value (Events EpicsBase.lib) 5) (value (Events EpicsBase.lib) 3) =
    4 /\
  Z.land (value AccessRights 3) (value AccessRights 2) = 2.
Proof.
  destruct (flags_contained_in_last EpicsBase.lib 3) as (He & _).
  destruct (flags_contained_in_last EpicsBase.lib 2) as (_ & Ha & _).
  split.
  - rewrite He; [reflexivity | cbn; lia].
  - rewrite Ha; [reflexivity | cbn; lia].
Defined.

(** ** Stopping at the first failure *)

Lemma stops_after_app_quiet (p : Event -> bool) (pre tr : list Event) :
  existsb p pre = false ->
  stops_after p (pre ++ tr) = stops_after p tr.
Proof.
  induction pre as [|e pre IH]; [done|]. cbn.
  intros [-> Hpre]%orb_false_iff. by apply IH.
Qed.

Lemma stops_after_app_cleanup (p : Event -> bool) (tr post : list Event) :
  stops_after p tr = true -> forallb cleanup_event post = true ->
  stops_after p (tr ++ post) = true.
Proof.
  intros Htr Hpost. induction tr as [|e tr IH]; [done|]. cbn in *.
  destruct (p e); [|by apply IH]. by rewrite forallb_app, Htr.
Qed.

Lemma stops_after_ext (p q : Event -> bool) (tr : list Event) :
  (forall e, In e tr -> p e = q e) ->
  stops_after p tr = stops_after q tr.
Proof.
  induction tr as [|e tr IH]; [done|]. intros Hpq. cbn.
  rewrite (Hpq e) by by left. rewrite IH; [done|].
  intros e' He'. apply Hpq. by right.
Qed.

Lemma stops_after_split (p : Event -> bool) (tr : list Event) :
  stops_after p tr = true ->
  exists pre e post,
    tr = pre ++ e :: post /\ p e = true /\ existsb p pre = false /\
    forallb cleanup_event post = true.
Proof.
  induction tr as [|e tr IH]; [done|]. cbn.
  destruct (p e) eqn:He.
  - intros Hpost. by exists [], e, tr.
  - intros (pre & e' & post & -> & He' & Hpre & Hpost)%IH.
    exists (e :: pre), e', post. cbn. by rewrite He.
Qed.

Lemma fill_entries_stops (d : EnumDef) (l : addr) (n : nat) :
  forall (i : Z) (s : Interp) (items : list (option addr)),
    heap s !! l = Some (PyList items) -> 0 <= i ->
    result (fill_entries d l i n s) = false ->
    stops_after step_failed (events (fill_entries d l i n s)) = true.
Proof.
  induction n as [|n IH]; intros i s items Hl Hi; [done|].
  destruct (fails s) eqn:Hf.
  - by rewrite fill_entries_fail.
  - rewrite (fill_entries_round d l i n s items) by done.
    cbv zeta. unfold result at 1, events at 1. cbn [fst snd stops_after].
    cbn [step_failed].
    apply (IH (i + 1) _ (<[Z.to_nat i := Some (length (heap s))]> items));
      [|lia].
    unfold after_round. cbn [heap]. apply list_lookup_insert_eq.
    rewrite length_app. apply lookup_lt_Some in Hl. lia.
Qed.

Lemma add_enum_stops (d : EnumDef) (m c : addr) (s : Interp) :
  result (add_enum d m c s) = false ->
  stops_after step_failed (events (add_enum d m c s)) = true.
Proof.
  set (r := add_enum d m c s).
  assert (Hr : add_enum d m c s = r) by reflexivity. clearbody r.
  unfold add_enum, bind, PyList_New in Hr.
  destruct (count d <? 0) eqn:Hc; [by finish_run Hr|].
  unfold new_reference in Hr. destruct (fails s) eqn:Hf; [by finish_run Hr|].
  set (l := length (heap s)) in *.
  set (s1 := acquire l (store (PyList (replicate (Z.to_nat (count d)) None))
                          (tick s))) in *.
  assert (Hl1 : heap s1 !! l =
            Some (PyList (replicate (Z.to_nat (count d)) None)))
    by apply lookup_store_new.
  pose proof (fill_entries_spec d l (Z.to_nat (count d)) 0 s1 _ Hl1) as Hloop.
  rewrite length_replicate in Hloop. specialize (Hloop ltac:(lia)).
  change (Z.of_nat 0) with 0 in Hloop. cbv zeta in Hloop.
  pose proof (fill_entries_stops d l (Z.to_nat (count d)) 0 s1 _ Hl1
                ltac:(lia)) as Hstop.
  destruct (fill_entries d l 0 (Z.to_nat (count d)) s1) as [[ok s2] tr2].
  unfold result, final, events in Hloop, Hstop. cbn [fst snd] in Hloop, Hstop.
  destruct Hloop as (_ & Hev2 & Hab2 & Hok & _).
  destruct ok; cbn [negb] in Hr.
  2: { finish_run Hr. intros _. unfold events. cbn [fst snd].
       rewrite app_nil_r. by apply Hstop. }
  cbn [negb] in Hab2.
  destruct Hok as (_ & _ & items' & Hl2 & Hlen2 & _ & Hfill); [done|].
  assert (Hrp : read_pairs (heap s2) l = Some (built_pairs d)).
  { apply (read_pairs_filled d _ l items'); auto.
    rewrite Hlen2. exact Hfill. }
  unfold PyObject_CallFunction_sN in Hr. rewrite Hrp in Hr.
  destruct (fails s2) eqn:Hf2.
  { finish_run Hr. intros _. unfold events. cbn [fst snd app stops_after].
    cbn [step_failed]. by rewrite stops_after_app_quiet. }
  set (t := length (heap s2)) in *.
  set (s3 := acquire t (store (PyType c (name d) (built_pairs d) None)
                          (release l (tick s2)))) in *.
  assert (Ht3 : heap s3 !! t = Some (PyType c (name d) (built_pairs d) None))
    by apply lookup_store_new.
  pose proof (attach_doc_spec d t s3 _ _ _ _ Ht3) as Hdoc.
  cbv zeta in Hdoc.
  destruct (attach_doc d t s3) as [[[] s4] tr4].
  unfold result, final, events in Hdoc. cbn [fst snd] in Hdoc.
  destruct Hdoc as (_ & _ & _ & Hev4 & _).
  pose proof (existsb_none _ _ _ doc_event_no_step Hev4) as Hab4.
  unfold PyModule_AddObject in Hr.
  assert (Hfail : forall tail,
            forallb cleanup_event tail = true ->
            stops_after step_failed
              ([EvListNew (count d) (Some l)] ++ tr2 ++
               [EvCallFunction c (name d) l (Some (built_pairs d)) (Some t)]
               ++ tr4 ++ [EvAddObject m (name d) t false] ++ tail) = true).
  { intros tail Htail. cbn [app stops_after step_failed].
    rewrite stops_after_app_quiet by done. cbn [stops_after step_failed].
    rewrite stops_after_app_quiet by done. exact Htail. }
  destruct (heap s4 !! m) as [om|] eqn:Hm4.
  2: { finish_run Hr. intros _. by apply Hfail. }
  destruct om as [| | | | | n dd attrs | |];
    try (finish_run Hr; intros _; by apply Hfail).
  destruct (fails s4) eqn:Hf4.
  { finish_run Hr. intros _. by apply Hfail. }
  by finish_run Hr.
Qed.

(** X17: [add_enum] stops at the first failed step: when it returns [false]
    there is one failed call of step 1, 2 or 4 in its trace, no such failure
    before it, and after it nothing but [Py_DECREF] and [PyErr_Format]. *)
Theorem add_enum_stops_at_failure (d : EnumDef) (m c : addr) (s : Interp) :
  result (add_enum d m c s) = false ->
  exists pre e post,
    events (add_enum d m c s) = pre ++ e :: post /\
    step_failed e = true /\
    existsb step_failed pre = false /\
    forallb cleanup_event post = true.
Proof. intros Hres. by apply stops_after_split, add_enum_stops. Qed.

Lemma add_enum_stops_at_failure_witness :
  exists pre e post,
    events (add_enum AccessRights 0 2 (loaded (only 2))) = pre ++ e :: post /\
    step_failed e = true /\
    existsb step_failed pre = false /\
    forallb cleanup_event post = true.
Proof.
  apply (add_enum_stops_at_failure AccessRights 0 2 (loaded (only 2))).
  reflexivity.
Defined.

Lemma registrar_aborts_pointwise (tr : list Event) :
  forallb registrar_event tr = true ->
  forall e, In e tr -> step_failed e = aborts e.
Proof.
  intros Hreg e Hin. apply (in_forallb _ _ _ Hreg) in Hin. by destruct e.
Qed.

Lemma register_list_stops (m : addr) (rs : list (EnumDef * addr)) :
  forall s : Interp,
    result (register_list rs m s) = false ->
    stops_after step_failed (events (register_list rs m s)) = true.
Proof.
  induction rs as [|[d c] rs IH]; intros s; [done|].
  cbn [register_list]. unfold bind.
  pose proof (add_enum_stops d m c s) as Hstop.
  destruct (add_enum_spec d m c s) as (_ & _ & _ & _ & Hab & _).
  destruct (add_enum d m c s) as [[ok s1] tr1].
  unfold result, events in Hstop, Hab. cbn [fst snd] in Hstop, Hab.
  destruct ok; cbn [negb] in *.
  - specialize (IH s1).
    destruct (register_list rs m s1) as [[ok s2] tr2].
    unfold result, events in *. cbn [fst snd] in *.
    intros Hres. rewrite stops_after_app_quiet by done. by apply IH.
  - intros _. unfold ret, events. cbn [fst snd]. rewrite app_nil_r.
    by apply Hstop.
Qed.

Lemma cleanup_decrefs (refs : list addr) :
  forallb cleanup_event (map EvDecref refs) = true.
Proof. by induction refs. Qed.

(** X18: [PyInit_ca] stops at the first failure that ends the
    initialisation: when it returns [NULL] there is one such failed call in
    its trace, none before it, and after it nothing but [Py_DECREF] and
    [PyErr_Format]; no registration and no lookup is tried after it. *)
Theorem PyInit_ca_stops_at_failure (L : Library) (s : Interp) :
  result (PyInit_ca L s) = None ->
  exists pre e post,
    events (PyInit_ca L s) = pre ++ e :: post /\
    aborts e = true /\
    existsb aborts pre = false /\
    forallb cleanup_event post = true.
Proof.
  intros Hres. apply stops_after_split. revert Hres.
  rewrite PyInit_ca_eq. cbv zeta.
  pose proof (PyInit_body_way L s) as Hway. cbv zeta in Hway.
  destruct Hway as [v s' tr _ _ _ _ _ Hstop | m a em ec fc fb s5 Hns _ _ _ _].
  { intros _. unfold events. cbn [fst snd].
    apply stops_after_app_cleanup; [done|]. apply cleanup_decrefs. }
  destruct (register_all_frame L m em ec fc s5 _ Hns) as (_ & _ & _ & Hreg & _).
  revert Hreg. rewrite register_all_eq. cbv zeta.
  pose proof (register_list_stops m (registrations L ec fc) s5) as Hstop.
  destruct (register_list (registrations L ec fc) m s5) as [[ok s'] tr].
  unfold result, final, events in *. cbn [fst snd] in *.
  destruct ok; cbn [fst snd]; [discriminate|].
  intros Hreg _. apply stops_after_app_cleanup; [|apply cleanup_decrefs].
  rewrite stops_after_app_quiet by by destruct fb.
  rewrite <- (stops_after_ext _ _ _ (registrar_aborts_pointwise _ Hreg)).
  by apply Hstop.
Qed.

Lemma PyInit_ca_stops_at_failure_witness :
  exists pre e post,
    events (PyInit_ca EpicsBase.lib (boot (only 10))) = pre ++ e :: post /\
    aborts e = true /\
    existsb aborts pre = false /\
    forallb cleanup_event post = true.
Proof.
  apply (PyInit_ca_stops_at_failure EpicsBase.lib (boot (only 10))).
  vm_compute. reflexivity.
Defined.

(** ** The documentation of the types *)

Lemma attach_doc_sets (d : EnumDef) (t : addr) (s : Interp)
    (c : addr) (n : string) (ms : list (string * Z)) :
  heap s !! t = Some (PyType c n ms None) ->
  existsb failed (events (attach_doc d t s)) = false ->
  heap (final (attach_doc d t s)) !! t = Some (PyType c n ms (doc d)).
Proof.
  intros Ht. unfold attach_doc. destruct (doc d) as [u|]; [|done].
  unfold bind, PyUnicode_FromString, new_reference.
  destruct (fails s) eqn:Hf1; [discriminate|].
  unfold PyObject_SetAttrString, Py_DECREF, fails. state_simpl.
  destruct (faults s (S (clock s))) eqn:Hf2; [discriminate|].
  rewrite (lookup_app_l_Some _ _ _ _ Ht), lookup_store_new.
  intros _. cbn. apply list_lookup_insert_eq.
  rewrite length_app. apply lookup_lt_Some in Ht. lia.
Qed.

Lemma failed_in (e : Event) (tr : list Event) :
  In e tr -> failed e = true -> existsb failed tr = false -> False.
Proof.
  intros Hin He Hno.
  assert (existsb failed tr = true) by (apply existsb_exists; eauto).
  congruence.
Qed.

(** X19: when no call fails, the type that [add_enum] installs carries the
    documentation of its provider: its [__doc__] is [doc], and it is a type
    made by the given callable, with the name and the pairs of the
    provider. *)
Theorem add_enum_documents_type (d : EnumDef) (m c : addr) (s : Interp) :
  let r := add_enum d m c s in
  existsb failed (events r) = false ->
  exists l t,
    In (EvCallFunction c (name d) l (Some (built_pairs d)) (Some t))
       (events r) /\
    In (EvAddObject m (name d) t true) (events r) /\
    heap (final r) !! t =
      Some (PyType c (name d) (built_pairs d) (doc d)).
Proof.
  intros r. assert (Hr : add_enum d m c s = r) by reflexivity. clearbody r.
  unfold add_enum, bind, PyList_New in Hr.
  destruct (count d <? 0) eqn:Hc; [by finish_run Hr|].
  unfold new_reference in Hr. destruct (fails s) eqn:Hf; [by finish_run Hr|].
  set (l := length (heap s)) in *.
  set (s1 := acquire l (store (PyList (replicate (Z.to_nat (count d)) None))
                          (tick s))) in *.
  assert (Hl1 : heap s1 !! l =
            Some (PyList (replicate (Z.to_nat (count d)) None)))
    by apply lookup_store_new.
  pose proof (fill_entries_spec d l (Z.to_nat (count d)) 0 s1 _ Hl1) as Hloop.
  rewrite length_replicate in Hloop. specialize (Hloop ltac:(lia)).
  change (Z.of_nat 0) with 0 in Hloop. cbv zeta in Hloop.
  destruct (fill_entries d l 0 (Z.to_nat (count d)) s1) as [[ok s2] tr2].
  unfold result, final, events in Hloop. cbn [fst snd] in Hloop.
  destruct Hloop as (_ & _ & Hab2 & Hok & _).
  destruct ok; cbn [negb] in Hr, Hab2.
  2: { finish_run Hr. unfold events. cbn [fst snd]. intros Hno. exfalso.
       rewrite app_nil_r in Hno. cbn in Hno.
       apply (existsb_weaken _ _ _ step_failed_failed) in Hno. congruence. }
  destruct Hok as (_ & _ & items' & Hl2 & Hlen2 & _ & Hfill); [done|].
  assert (Hrp : read_pairs (heap s2) l = Some (built_pairs d)).
  { apply (read_pairs_filled d _ l items'); auto.
    rewrite Hlen2. exact Hfill. }
  unfold PyObject_CallFunction_sN in Hr. rewrite Hrp in Hr.
  destruct (fails s2) eqn:Hf2.
  { finish_run Hr. unfold events. cbn [fst snd]. intros Hno.
    apply (failed_in (EvCallFunction c (name d) l (Some (built_pairs d))
                        None) _) in Hno; [done| |done].
    rewrite !in_app_iff. cbn. auto 10. }
  set (t := length (heap s2)) in *.
  set (s3 := acquire t (store (PyType c (name d) (built_pairs d) None)
                          (release l (tick s2)))) in *.
  assert (Ht3 : heap s3 !! t = Some (PyType c (name d) (built_pairs d) None))
    by apply lookup_store_new.
  pose proof (attach_doc_sets d t s3 _ _ _ Ht3) as Hdoc.
  destruct (attach_doc d t s3) as [[[] s4] tr4].
  unfold final, events in Hdoc. cbn [fst snd] in Hdoc.
  unfold PyModule_AddObject in Hr.
  assert (Hfail : forall tail,
            existsb failed
              ([EvListNew (count d) (Some l)] ++ tr2 ++
               [EvCallFunction c (name d) l (Some (built_pairs d)) (Some t)]
               ++ tr4 ++ [EvAddObject m (name d) t false] ++ tail) = false ->
            False).
  { intros tail Hno.
    apply (failed_in (EvAddObject m (name d) t false) _) in Hno; [done| |done].
    rewrite !in_app_iff. cbn. auto 10. }
  destruct (heap s4 !! m) as [om|] eqn:Hm4.
  2: { finish_run Hr. intros Hno. exfalso. by eapply Hfail. }
  destruct om as [| | | | | n dd attrs | |];
    try (finish_run Hr; intros Hno; exfalso; by eapply Hfail).
  destruct (fails s4) eqn:Hf4.
  { finish_run Hr. intros Hno. exfalso. by eapply Hfail. }
  clear Hfail. finish_run Hr. unfold events, final. cbn [fst snd].
  intros Hno. exists l, t. state_simpl.
  split; [rewrite !in_app_iff; cbn; auto 10|].
  split; [rewrite !in_app_iff; cbn; auto 10|].
  assert (Hno4 : existsb failed tr4 = false).
  { rewrite !existsb_app in Hno. cbn in Hno.
    apply orb_false_iff in Hno as [_ Hno].
    by apply orb_false_iff in Hno as [Hno _]. }
  assert (Hne : m <> t).
  { intros ->. rewrite (Hdoc Hno4) in Hm4. discriminate. }
  rewrite list_lookup_insert_ne by done. by apply Hdoc.
Qed.

Lemma add_enum_documents_type_witness :
  exists t,
    heap (final (add_enum AccessRights 0 2 (loaded never))) !! t =
      Some (PyType 2 "AccessRights"
              [("NO_ACCESS", 0); ("READ_ACCESS", 1); ("WRITE_ACCESS", 2);
               ("RW_ACCESS", 3)]
              (Some access_rights__doc__)).
Proof.
  destruct (add_enum_documents_type AccessRights 0 2 (loaded never) eq_refl)
    as (l & t & _ & _ & Ht).
  exists t. exact Ht.
Defined.

(** ** Storing into its own objects only *)

Lemma owns_In (own : list addr) (a : addr) : owns own a = true <-> In a own.
Proof.
  unfold owns. rewrite existsb_exists. split.
  - by intros (x & Hx & ->%Nat.eqb_eq).
  - intros Ha. exists a. by rewrite Nat.eqb_refl.
Qed.

Lemma stores_own_seq (t1 t2 : list Event) :
  forall own,
    stores_own own t1 = true ->
    (forall own', incl own own' -> stores_own own' t2 = true) ->
    stores_own own (t1 ++ t2) = true.
Proof.
  induction t1 as [|e t1 IH]; intros own H1 H2; cbn.
  - apply H2. apply incl_refl.
  - cbn in H1. apply andb_true_iff in H1 as [-> H1]. cbn.
    apply IH; [done|]. intros own' Hincl. apply H2.
    destruct (made e); [|done]. intros x Hx. apply Hincl. by right.
Qed.

Lemma stores_own_quiet (own : list addr) (tr : list Event) :
  forallb (fun e => match written e with Some _ => false | None => true end)
    tr = true ->
  stores_own own tr = true.
Proof.
  revert own. induction tr as [|e tr IH]; intros own; [done|]. cbn.
  intros [He Htr]%andb_true_iff. destruct (written e); [done|]. by apply IH.
Qed.

Lemma fill_entries_stores (d : EnumDef) (l : addr) (n : nat) :
  forall (i : Z) (s : Interp) (own : list addr),
    In l own -> stores_own own (events (fill_entries d l i n s)) = true.
Proof.
  induction n as [|n IH]; intros i s own Hl; [done|].
  cbn [fill_entries]. unfold bind, Py_BuildValue_si, new_reference.
  destruct (fails s).
  - reflexivity.
  - unfold PyList_SET_ITEM.
    match goal with
    | |- context [fill_entries d l (i + 1) n ?st] =>
        specialize (IH (i + 1) st (length (heap s) :: own) ltac:(by right));
        destruct (fill_entries d l (i + 1) n st) as [[ok s2] tr]
    end.
    unfold events in *. cbn [fst snd app stores_own written made] in *.
    rewrite IH, andb_true_r. cbn. apply orb_true_iff. right.
    by apply owns_In.
Qed.

Lemma attach_doc_stores (d : EnumDef) (t : addr) (s : Interp)
    (own : list addr) :
  In t own -> stores_own own (events (attach_doc d t s)) = true.
Proof.
  intros Ht. unfold attach_doc. destruct (doc d) as [u|]; [|done].
  unfold bind, PyUnicode_FromString, new_reference.
  destruct (fails s); [done|].
  unfold PyObject_SetAttrString, Py_DECREF.
  match goal with |- context [fails ?st] => destruct (fails st) end;
    unfold events; cbn [fst snd app stores_own written made];
    rewrite !andb_true_r; cbn; apply orb_true_iff; right; by apply owns_In.
Qed.

Lemma add_enum_stores (d : EnumDef) (m c : addr) (s : Interp)
    (own : list addr) :
  In m own -> stores_own own (events (add_enum d m c s)) = true.
Proof.
  intros Hm. unfold add_enum, bind, PyList_New.
  destruct (count d <? 0); [done|].
  unfold new_reference. destruct (fails s); [done|].
  set (l := length (heap s)).
  match goal with
  | |- context [fill_entries d l 0 ?n ?st] =>
      pose proof (fill_entries_stores d l n 0 st (l :: own) ltac:(by left))
        as Hloop;
      destruct (fill_entries d l 0 n st) as [[ok s2] tr2]
  end.
  unfold events in Hloop. cbn [fst snd] in Hloop.
  destruct ok; cbn [negb].
  2: { unfold ret, events. cbn [fst snd app stores_own written made].
       by rewrite app_nil_r. }
  assert (Hcall : exists res s3 ps,
            PyObject_CallFunction_sN c (name d) l s2 =
              (res, s3, [EvCallFunction c (name d) l ps res])).
  { unfold PyObject_CallFunction_sN.
    destruct (read_pairs (heap s2) l); [destruct (fails s2)|]; eauto. }
  destruct Hcall as (res & s3 & ps & ->).
  destruct res as [t|].
  2: { unfold ret, events. cbn [fst snd app stores_own written made].
       apply stores_own_seq; [done|]. by intros own' _. }
  pose proof (fun own' => attach_doc_stores d t s3 own') as Hdoc.
  destruct (attach_doc d t s3) as [[[] s4] tr4].
  unfold events in Hdoc. cbn [fst snd] in Hdoc.
  assert (Hadd : exists rc s5 ok,
            PyModule_AddObject m (name d) t s4 =
              (rc, s5, [EvAddObject m (name d) t ok])).
  { unfold PyModule_AddObject.
    destruct (heap s4 !! m) as [[| | | | | ? ? ?| |]|];
      [..|destruct (fails s4)| | |]; eauto. }
  destruct Hadd as (rc & s5 & ok & ->).
  assert (Hend : forall tail own',
            incl own own' -> In t own' ->
            forallb (fun e => match written e with
                              | Some _ => false | None => true end) tail
              = true ->
            stores_own own' (tr4 ++ [EvAddObject m (name d) t ok] ++ tail)
              = true).
  { intros tail own' Hincl Ht Htail.
    apply stores_own_seq; [by apply Hdoc|]. intros own'' Hincl'.
    cbn [app stores_own written made].
    rewrite (stores_own_quiet _ _ Htail), andb_true_r.
    apply owns_In, Hincl', Hincl, Hm. }
  assert (Hall : forall tail,
            forallb (fun e => match written e with
                              | Some _ => false | None => true end) tail
              = true ->
            stores_own own
              ([EvListNew (count d) (Some l)] ++ tr2 ++
               [EvCallFunction c (name d) l ps (Some t)] ++ tr4 ++
               [EvAddObject m (name d) t ok] ++ tail) = true).
  { intros tail Htail. cbn [app stores_own written made andb].
    apply stores_own_seq; [done|]. intros own' Hincl.
    cbn [stores_own written made andb].
    apply Hend; [|by left|done].
    intros x Hx. right. apply Hincl. by right. }
  destruct (negb (rc =? 0)); unfold ret, PyErr_Format, events;
    cbn [fst snd]; by apply Hall.
Qed.

(** X5: of the calls that [add_enum] makes, those that store into an object
    they are given, [PyList_SET_ITEM], [PyObject_SetAttrString] and
    [PyModule_AddObject], have as their target the module, or what an earlier
    [PyList_New], [Py_BuildValue], constructor call or [PyUnicode_FromString]
    of the same trace returned: [add_enum] itself stores into nothing else,
    the class it is given included.  What the constructor does with its class
    is within the call and not in the trace. *)
Theorem add_enum_stores_own (d : EnumDef) (m c : addr) (s : Interp) :
  stores_own [m] (events (add_enum d m c s)) = true.
Proof. apply add_enum_stores. by left. Qed.

Lemma register_list_stores (m : addr) (rs : list (EnumDef * addr)) :
  forall (s : Interp) (own : list addr),
    In m own -> stores_own own (events (register_list rs m s)) = true.
Proof.
  induction rs as [|[d c] rs IH]; intros s own Hm; [done|].
  cbn [register_list]. unfold bind.
  pose proof (fun own' => add_enum_stores d m c s own') as Hfirst.
  destruct (add_enum d m c s) as [[ok s1] tr1].
  unfold events in Hfirst. cbn [fst snd] in Hfirst.
  destruct ok; cbn [negb].
  - pose proof (fun own' => IH s1 own') as Hrest.
    destruct (register_list rs m s1) as [[ok' s2] tr2].
    unfold events in *. cbn [fst snd] in *.
    apply stores_own_seq; [by apply Hfirst|].
    intros own' Hincl. apply Hrest, Hincl, Hm.
  - unfold ret, events. cbn [fst snd]. rewrite app_nil_r. by apply Hfirst.
Qed.

Lemma decrefs_quiet (refs : list addr) :
  forallb (fun e => match written e with Some _ => false | None => true end)
    (map EvDecref refs) = true.
Proof. by induction refs. Qed.

Lemma register_all_stores (L : Library) (m em ec fc : addr) (s : Interp)
    (own : list addr) :
  In m own ->
  stores_own own (events (register_all L m em ec fc s)) = true.
Proof.
  intros Hm. rewrite register_all_eq. cbv zeta.
  pose proof (register_list_stores m (registrations L ec fc) s own Hm) as Hl.
  destruct (register_list (registrations L ec fc) m s) as [[[] s'] tr];
    unfold result, events in *; cbn [fst snd] in *; [|done].
  apply stores_own_seq; [done|]. by intros own' _.
Qed.

Lemma PyInit_body_stores (L : Library) (s : Interp) :
  stores_own [] (events (PyInit_body L s)) = true.
Proof.
  set (r := PyInit_body L s).
  assert (Hr : PyInit_body L s = r) by reflexivity. clearbody r.
  unfold PyInit_body, bind, PyModule_Create, new_reference in Hr.
  destruct (fails s) eqn:H0; [by finish_run Hr|].
  unfold PyModule_AddIntConstant, fails in Hr. state_simpl.
  rewrite lookup_store_new in Hr. cbn [def_name def_doc module_def] in Hr.
  set (m := length (heap s)) in *.
  assert (Hm : forall tr, stores_own [m] tr = true ->
            forall v ok,
              stores_own []
                ([EvModuleCreate "ca_client.ca" (Some m)] ++
                 [EvAddIntConstant m "EPICS_EPOCH" v ok] ++ tr) = true).
  { intros tr Htr v ok. cbn. by rewrite Nat.eqb_refl. }
  destruct (faults s (S (clock s))) eqn:H1.
  { finish_run Hr. by apply Hm. }
  cbn [negb Z.eqb dict_set] in Hr.
  unfold PyImport_ImportModule, new_reference, fails in Hr. state_simpl.
  destruct (faults s (S (S (clock s)))) eqn:H2.
  { finish_run Hr. by apply Hm. }
  unfold PyObject_GetAttrString, new_reference, fails in Hr. state_simpl.
  destruct (faults s (S (S (S (clock s))))) eqn:H3.
  { finish_run Hr. by apply Hm. }
  state_simpl.
  destruct (faults s (S (S (S (S (clock s)))))) eqn:H4.
  - unfold PyErr_Clear in Hr. state_simpl.
    destruct (faults s (S (S (S (S (S (clock s))))))) eqn:H5.
    { finish_run Hr. by apply Hm. }
    match type of Hr with
    | context [register_all L ?x ?em ?ec ?fc ?st] =>
        pose proof (register_all_stores L x em ec fc st [m] ltac:(by left))
          as Hrun;
        destruct (register_all L x em ec fc st) as [[b s'] tr]
    end.
    finish_run Hr. unfold events in *. cbn [fst snd] in *.
    by apply Hm.
  - match type of Hr with
    | context [register_all L ?x ?em ?ec ?fc ?st] =>
        pose proof (register_all_stores L x em ec fc st [m] ltac:(by left))
          as Hrun;
        destruct (register_all L x em ec fc st) as [[b s'] tr]
    end.
    finish_run Hr. unfold events in *. cbn [fst snd] in *.
    by apply Hm.
Qed.

(** X11: of the calls that [PyInit_ca] makes, those that store into an
    object they are given, [PyModule_AddIntConstant], [PyList_SET_ITEM],
    [PyObject_SetAttrString] and [PyModule_AddObject], have as their target
    what an earlier [PyModule_Create], [PyList_New], [Py_BuildValue],
    constructor call or [PyUnicode_FromString] of the same trace returned,
    whether the initialisation succeeds or fails: [PyInit_ca] itself stores
    into nothing that it did not make. *)
Theorem PyInit_ca_stores_own (L : Library) (s : Interp) :
  stores_own [] (events (PyInit_ca L s)) = true.
Proof.
  rewrite PyInit_ca_eq. cbv zeta.
  pose proof (PyInit_body_stores L s) as Hb.
  destruct (result (PyInit_body L s)) as [v|m]; unfold events at 1;
    cbn [fst snd]; [|done].
  apply stores_own_seq; [done|]. intros own' _.
  apply stores_own_quiet, decrefs_quiet.
Qed.
